(** * The Makeblock mBot protocol engine (cwc.protocol.makeblock.mbot.Api)

    A shallow embedding of [src/protocol/robots/makeblock/mbot/api.js]:
    the byte/float codec, the response dispatcher with its change-detection
    cache, and the connection life cycle with command execution.

    JavaScript numbers that hold integers are modelled as [Z] (every integer
    met here stays far below 2^53, where doubles are exact); the 32-bit
    operators [<<], [>>], [&] and [|] have their wrap-around written out.
    The one fractional value, the decoded float, is a dyadic rational and is
    modelled as [Q]. *)

From Stdlib Require Import ZArith QArith Qpower Qround Qabs Qreduction Lia Lqa List.
From stdpp Require Import base gmap list strings.

Local Open Scope Z_scope.

(** ** JavaScript 32-bit integer operators *)

Module JS.

(** ECMAScript ToInt32: reduce modulo 2^32 into the signed range. *)
Definition ToInt32 (x : Z) : Z := (x + 2 ^ 31) mod 2 ^ 32 - 2 ^ 31.

(** [a << n]: the shift count is taken modulo 32 and the result is an int32. *)
Definition shl (a n : Z) : Z := ToInt32 (Z.shiftl (ToInt32 a) (n mod 32)).

(** [a >> n]: sign-propagating right shift of the int32 value of [a]. *)
Definition sar (a n : Z) : Z := Z.shiftr (ToInt32 a) (n mod 32).

(** [a & b] and [a | b] on the int32 values of the operands. *)
Definition band (a b : Z) : Z := Z.land (ToInt32 a) (ToInt32 b).
Definition bor (a b : Z) : Z := Z.lor (ToInt32 a) (ToInt32 b).

(** An element read from an array: [None] is JavaScript's [undefined]. *)
Abbreviation element := (option Z).

(** [x >= 64] on an array element; [undefined >= 64] is [false]. *)
Definition ge (x : element) (k : Z) : bool :=
  match x with
  | Some v => k <=? v
  | None => false
  end.

End JS.

(** ** Float / byte codec *)

Module Codec.

(** [fourBytesToInt_]: [( b1 << 24 ) + ( b2 << 16 ) + ( b3 << 8 ) + b4].
    The three shifts are int32 values, the additions are ordinary number
    additions and do not wrap. *)
Definition fourBytesToInt_ (b1 b2 b3 b4 : Z) : Z :=
  JS.shl b1 24 + JS.shl b2 16 + JS.shl b3 8 + b4.

(** [Math.pow(2, k)] for an integer [k]: an exact power of two. *)
Definition pow2 (k : Z) : Q := Qpower 2 k.

(** [intBitsToFloat_]. *)
Definition intBitsToFloat_ (num : Z) : Q :=
  let sign := if JS.sar num 31 =? 0 then 1 else -1 in
  let exponent := JS.band (JS.sar num 23) 255 in
  let mantissa :=
    if exponent =? 0
    then JS.shl (JS.band num 8388607) 1
    else JS.bor (JS.band num 8388607) 8388608 in
  (inject_Z sign * inject_Z mantissa * pow2 (exponent - 150))%Q.

(** Round-half-even of the fraction [n / d] with [0 <= n] and [0 < d]. *)
Definition round_half_even (n d : Z) : Z :=
  let q := n / d in
  let r := n mod d in
  if 2 * r <? d then q
  else if d <? 2 * r then q + 1
  else if Z.even q then q else q + 1.

(** The double (IEEE-754 binary64) nearest to the rational [q], ties to
    even, as the exact rational it stands for: a significand of at most 53
    bits times a power of two not below 2^-1074. This is what reading a
    decimal literal gives; the literals met here are far below 2^1024, so
    overflow to Infinity does not arise. *)
Definition nearest_double (q : Q) : Q :=
  let n := Z.abs (Qnum q) in
  let d := Z.pos (Qden q) in
  if n =? 0 then 0%Q
  else
    let e0 := Z.log2 n - Z.log2 d - 52 in
    let scaled e := if 0 <=? e then (n, d * 2 ^ e) else (n * 2 ^ (- e), d) in
    let e1 := if (let '(a, b) := scaled e0 in a <? b * 2 ^ 52) then e0 - 1
              else if (let '(a, b) := scaled e0 in b * 2 ^ 53 <=? a) then e0 + 1
              else e0 in
    let e := Z.max e1 (-1074) in
    let m := (let '(a, b) := scaled e in round_half_even a b) in
    let v := if 0 <=? e then inject_Z (m * 2 ^ e)
             else Qred (Qmake m (Z.to_pos (2 ^ (- e)))) in
    if Qnum q <? 0 then Qopp v else v.

(** [parseFloat(x.toFixed(2))] for a double [x]: [toFixed] prints the
    decimal with two fraction digits nearest to [x], ties away from zero,
    and [parseFloat] reads it back as the double nearest to that decimal;
    from 10^21 on [toFixed] prints the number itself, which reads back as
    [x]. *)
Definition toFixed2 (x : Q) : Q :=
  if Qle_bool (inject_Z (10 ^ 21)) (Qabs x) then x
  else
    let n := Qfloor (Qabs x * inject_Z 100 + (1 # 2))%Q in
    nearest_double (if Qle_bool 0 x then (n # 100)%Q else (- n # 100)%Q).

(** [parseFloatBytes_]: the payload is little-endian. A missing
    [dataBytes[i]] is [undefined]; [<<] turns it into 0, and when
    [dataBytes[0]] is missing the sum is NaN, which the bit operators of
    [intBitsToFloat_] read as 0 as well. *)
Definition parseFloatBytes_ (dataBytes : list Z) : Q :=
  let byte i := default 0 (dataBytes !! i) in
  let intValue := fourBytesToInt_ (byte 3%nat) (byte 2%nat) (byte 1%nat) (byte 0%nat) in
  toFixed2 (intBitsToFloat_ intValue).

(** The standard IEEE-754 binary32 interpretation of a 32-bit pattern
    [0 <= w < 2^32], following the standard's wording: sign bit 31, biased
    exponent in bits 30-23, fraction in bits 22-0. *)
Inductive binary32_value :=
| B32_finite (q : Q)
| B32_infinity (negative : bool)
| B32_nan.

Definition sign_field (w : Z) : bool := Z.testbit w 31.
Definition exponent_field (w : Z) : Z := (w / 2 ^ 23) mod 2 ^ 8.
Definition fraction_field (w : Z) : Z := w mod 2 ^ 23.

Definition ieee754_binary32 (w : Z) : binary32_value :=
  let s := if sign_field w then (-1)%Z else 1 in
  let e := exponent_field w in
  let f := fraction_field w in
  if e =? 255 then
    if f =? 0 then B32_infinity (sign_field w) else B32_nan
  else if e =? 0 then
    B32_finite (inject_Z s * (inject_Z f / inject_Z (2 ^ 23)) * Qpower 2 (-126))%Q
  else
    B32_finite (inject_Z s * (1 + inject_Z f / inject_Z (2 ^ 23)) * Qpower 2 (e - 127))%Q.

End Codec.

(** ** The protocol engine *)

Module Mbot.

(** [cwc.protocol.makeblock.mbot.CallbackType]: the enum object whose
    fields name the index bytes of the responses. Its numeric values are
    declared in another file of the repository, so the table is a
    parameter of the engine. *)
Record CallbackTypeEnum := {
  VERSION : Z;
  ULTRASONIC : Z;
  LINEFOLLOWER : Z;
  LIGHTSENSOR : Z;
  INNER_BUTTON : Z;
}.

(** The enum values are pairwise different index bytes. *)
Definition distinct_index_types (ct : CallbackTypeEnum) : Prop :=
  NoDup [VERSION ct; ULTRASONIC ct; LINEFOLLOWER ct; LIGHTSENSOR ct; INNER_BUTTON ct].

(** A transport device is identified by its address. *)
Abbreviation Device := string.

(** Byte buffers and payloads ([ArrayBuffer], [Uint8Array]). *)
Abbreviation Buffer := (list Z).

(** The parameter object of a command, e.g. [{'frequency': 524, 'duration': 240}]. *)
Abbreviation Params := (gmap string Z).

(** The payload of a [LinefollowerSensorValue] event. *)
Record LinefollowerData := {
  lf_left : bool;
  lf_right : bool;
  lf_raw : Buffer;
}.

(** [cwc.protocol.makeblock.mbot.Events]: the four sensor events. *)
Inductive Event :=
| ButtonPressed (data : JS.element)
| LightnessSensorValue (data : Q)
| LinefollowerSensorValue (data : LinefollowerData)
| UltrasonicSensorValue (data : Q).

(** What a call of a member of the handler object can return besides a
    buffer. *)
Inductive Value :=
| VString (text : string)
| VBoolean (b : bool)
| VHandler                       (* the handler object itself *)
| VUndefined.

(** What [this.handler[command](data)] returns. *)
Inductive Reply :=
| Encoded (buffer : Buffer)      (* the buffer a command of the table builds *)
| Other (v : Value).

Inductive LogArg :=
| LogText (text : string)
| LogBytes (bytes : Buffer)
| LogValue (value : JS.element).

(** What the engine does to its collaborators, in the order it happens. *)
Inductive Effect :=
| Log (level : string) (args : list LogArg)
| Listen (d : Device)            (* events_.listen(device.getEventHandler(), ON_RECEIVE, ...) *)
| DeviceSend (d : Device) (buffer : Buffer)
| DeviceSendValue (d : Device) (v : Value)   (* device.send(...) of what is no buffer *)
| DeviceDisconnect (d : Device)
| DeviceReset (d : Device)
| EventsClear                    (* events_.clear() *)
| MonitoringStart
| MonitoringStop
| MonitoringCleanUp
| Dispatch (e : Event).          (* eventHandler.dispatchEvent(...) *)

(** The fields of the Api object, the links of the transport devices it
    can be given, and the trace of effects so far. *)
Record State := {
  device : option Device;              (* this.device, [None] is null *)
  prepared : bool;                     (* this.prepared *)
  sensorDataCache_ : gmap Z Buffer;    (* this.sensorDataCache_ *)
  streamReader_ : Buffer;              (* bytes buffered by this.streamReader_ *)
  linked : gset Device;                (* devices whose isConnected() is true *)
  trace : list Effect;
}.

(** The state right after the constructor, with nothing done yet. *)
Definition construct (links : gset Device) : State :=
  {| device := None; prepared := false; sensorDataCache_ := ∅;
     streamReader_ := []; linked := links; trace := [] |}.

Definition set_device (d : option Device) (s : State) : State :=
  {| device := d; prepared := prepared s; sensorDataCache_ := sensorDataCache_ s;
     streamReader_ := streamReader_ s; linked := linked s; trace := trace s |}.

Definition set_prepared (b : bool) (s : State) : State :=
  {| device := device s; prepared := b; sensorDataCache_ := sensorDataCache_ s;
     streamReader_ := streamReader_ s; linked := linked s; trace := trace s |}.

Definition set_sensorDataCache_ (c : gmap Z Buffer) (s : State) : State :=
  {| device := device s; prepared := prepared s; sensorDataCache_ := c;
     streamReader_ := streamReader_ s; linked := linked s; trace := trace s |}.

Definition set_streamReader_ (b : Buffer) (s : State) : State :=
  {| device := device s; prepared := prepared s; sensorDataCache_ := sensorDataCache_ s;
     streamReader_ := b; linked := linked s; trace := trace s |}.

Definition set_linked (l : gset Device) (s : State) : State :=
  {| device := device s; prepared := prepared s; sensorDataCache_ := sensorDataCache_ s;
     streamReader_ := streamReader_ s; linked := l; trace := trace s |}.

Definition emit (e : Effect) (s : State) : State :=
  {| device := device s; prepared := prepared s; sensorDataCache_ := sensorDataCache_ s;
     streamReader_ := streamReader_ s; linked := linked s; trace := trace s ++ [e] |}.

(** The outbound buffers handed to [device.send], oldest first. *)
Definition sent (t : list Effect) : list (Device * Buffer) :=
  omap (fun e => match e with DeviceSend d b => Some (d, b) | _ => None end) t.

(** The events dispatched to the subscribers, oldest first. *)
Definition dispatched (t : list Effect) : list Event :=
  omap (fun e => match e with Dispatch ev => Some ev | _ => None end) t.

(** Whether [monitoring.start()] has been called. *)
Definition monitoring_started (t : list Effect) : bool :=
  existsb (fun e => match e with MonitoringStart => true | _ => false end) t.

(** *** Exceptions

    A call either returns a value or throws; either way it leaves the
    state it has reached. *)
Inductive Error :=
| TypeError (what : string).

Inductive Outcome (A : Type) :=
| Return (a : A) (s : State)
| Throw (e : Error) (s : State).
Arguments Return {A} a s.
Arguments Throw {A} e s.

Definition M (A : Type) : Type := State -> Outcome A.

#[global] Instance M_ret : MRet M := fun A (a : A) s => Return a s.

#[global] Instance M_bind : MBind M := fun A B (k : A -> M B) (m : M A) s =>
  match m s with
  | Return a s' => k a s'
  | Throw e s' => Throw e s'
  end.

Definition throw {A} (e : Error) : M A := fun s => Throw e s.

(** Read the current state. *)
Definition get : M State := fun s => Return s s.

(** Run a step that cannot throw. *)
Definition lift (f : State -> State) : M unit := fun s => Return tt (f s).

(** The state an outcome ends in. *)
Definition final {A} (o : Outcome A) : State :=
  match o with Return _ s => s | Throw _ s => s end.

Definition throws {A} (o : Outcome A) : bool :=
  match o with Return _ _ => false | Throw _ _ => true end.

(** A computation preserves a component of the state when the state it
    ends in, returning or throwing, has that component unchanged. *)
Definition preserves {A B} (proj : State -> B) (m : M A) : Prop :=
  forall s, proj (final (m s)) = proj s.

(** The attached device together with the sensor cache. *)
Definition attachment (s : State) : option Device * gmap Z Buffer :=
  (device s, sensorDataCache_ s).

(** *** Collaborators *)

(** Modelled from the spec: [cwc.utils.ByteTools.isArrayBufferEqual], which
    is declared in another file of the repository: the bytewise equality
    of two payloads. *)
Definition isArrayBufferEqual (data1 data2 : Buffer) : bool :=
  bool_decide (data1 = data2).

(** Modelled from the spec: the transport device, whose class is declared
    in another file of the repository. [send] is fire-and-forget,
    [disconnect] drops the link, [reset] keeps it. *)
Definition device_isConnected (d : Device) (s : State) : bool :=
  bool_decide (d ∈ linked s).

Definition device_send (d : Device) (buffer : Buffer) : State -> State :=
  emit (DeviceSend d buffer).

Definition device_send_value (d : Device) (v : Value) : State -> State :=
  emit (DeviceSendValue d v).

(** The members the handler object inherits from [Object.prototype] (and
    [constructor] from its own prototype), by what calling them as
    [this.handler[name](data)] with a parameter object gives: [Some v] is
    the value returned, [None] a TypeError. [toString] and
    [toLocaleString] print the object, [valueOf] returns it,
    [hasOwnProperty], [isPrototypeOf] and [propertyIsEnumerable] answer
    false for a parameter object, [constructor] run as a plain function and
    the two [__lookup...__] members return [undefined];
    [__defineGetter__] and [__defineSetter__] refuse the missing accessor
    function, and [__proto__] is an object, not a function. *)
Definition Object_prototype : gmap string (option Value) :=
  list_to_map
    [ ("constructor", Some VUndefined);
      ("toString", Some (VString "[object Object]"));
      ("toLocaleString", Some (VString "[object Object]"));
      ("valueOf", Some VHandler);
      ("hasOwnProperty", Some (VBoolean false));
      ("isPrototypeOf", Some (VBoolean false));
      ("propertyIsEnumerable", Some (VBoolean false));
      ("__lookupGetter__", Some VUndefined);
      ("__lookupSetter__", Some VUndefined);
      ("__defineGetter__", None);
      ("__defineSetter__", None);
      ("__proto__", None) ].

Definition device_disconnect (d : Device) (s : State) : State :=
  emit (DeviceDisconnect d) (set_linked (linked s ∖ {[d]}) s).

Definition device_reset (d : Device) : State -> State :=
  emit (DeviceReset d).

(** Modelled from the spec: the Monitoring Loop, whose class is declared in
    another file of the repository, is timer-driven; [start], [stop] and
    [cleanUp] arm or disarm the timer and issue no command themselves. *)
Definition monitoring_start : State -> State := emit MonitoringStart.
Definition monitoring_stop : State -> State := emit MonitoringStop.
Definition monitoring_cleanUp : State -> State := emit MonitoringCleanUp.

Section Api.

(** The enum values, the commands the object [this.handler] defines (a
    table from the command name to its encoder; following the spec an
    encoder is a pure function from the parameter object to a buffer) and
    [streamReader_.readByHeaderAndFooter], which maps the buffered bytes
    and a chunk to the frames found ([None] is a falsy result) and the
    bytes kept. All three live in other files of the repository. *)
Variable CallbackType : CallbackTypeEnum.
Variable handler : gmap string (Params -> Buffer).
Variable readByHeaderAndFooter : Buffer -> Buffer -> option (list Buffer) * Buffer.

(** [this.handler[command](data)]. The property lookup finds a command of
    the table first and then follows the prototype chain; calling
    [undefined], or a member that is not a function, is a TypeError. *)
Definition call_handler (command : string) (data : Params) : M Reply :=
  match handler !! command with
  | Some encode => mret (Encoded (encode data))
  | None =>
      match Object_prototype !! command with
      | Some (Some v) => mret (Other v)
      | _ => throw (TypeError command)
      end
  end.

(** [send]. *)
Definition send (buffer : Buffer) : M unit :=
  s ← get;
  match device s with
  | Some d => lift (device_send d buffer)
  | None => mret tt
  end.

(** [send], when what it is given is no buffer. *)
Definition send_value (v : Value) : M unit :=
  s ← get;
  match device s with
  | Some d => lift (device_send_value d v)
  | None => mret tt
  end.

(** [exec]; a missing [data] defaults to [{}]. *)
Definition exec (command : string) (data : option Params) : M unit :=
  reply ← call_handler command (default ∅ data);
  match reply with
  | Encoded buffer => send buffer
  | Other v => send_value v
  end.

(** [getBuffer]. *)
Definition getBuffer (command : string) (data : option Params) : M Reply :=
  call_handler command (default ∅ data).

(** [isConnected]. *)
Definition isConnected (s : State) : bool :=
  match device s with
  | Some d => device_isConnected d s
  | None => false
  end.

(** [monitor]. *)
Definition monitor (enable : bool) : M unit :=
  s ← get;
  if enable && isConnected s then lift monitoring_start
  else if negb enable then lift monitoring_stop
  else mret tt.

(** [events_.listen(this.device.getEventHandler(), ...)]; on a null device
    the method call is a TypeError. *)
Definition listen_on_receive : M unit :=
  s ← get;
  match device s with
  | Some d => lift (emit (Listen d))
  | None => throw (TypeError "getEventHandler")
  end.

(** [prepare]. *)
Definition prepare : M unit :=
  listen_on_receive;;
  exec "playTone" (Some {[ "frequency" := 524; "duration" := 240 ]});;
  exec "playTone" (Some {[ "frequency" := 584; "duration" := 240 ]});;
  exec "getVersion" None;;
  monitor true;;
  lift (set_prepared true).

(** [connect]; a falsy [device] is [None]. *)
Definition connect (dev : option Device) : M bool :=
  match dev with
  | None =>
      lift (emit (Log "error" [LogText "mBot is not ready yet..."]));;
      mret false
  | Some d =>
      s ← get;
      (if negb (prepared s) && device_isConnected d s then
         lift (emit (Log "info" [LogText "Preparing bluetooth api for"; LogText d]));;
         lift (set_device (Some d));;
         prepare
       else mret tt);;
      mret true
  end.

(** [reset]. *)
Definition reset : M unit :=
  lift (set_sensorDataCache_ ∅);;
  s ← get;
  match device s with
  | Some d => exec "stop" None;; lift (device_reset d)
  | None => mret tt
  end.

(** [cleanUp]. *)
Definition cleanUp : M unit :=
  lift (emit (Log "info" [LogText "Clean up ..."]));;
  reset;;
  lift (emit EventsClear);;
  lift monitoring_cleanUp.

(** [disconnect]. *)
Definition disconnect : M unit :=
  s ← get;
  match device s with
  | Some d => lift (device_disconnect d)
  | None => mret tt
  end;;
  cleanUp.

(** [dispatchSensorEvent_]. *)
Definition dispatchSensorEvent_ {T} (index : Z) (event : T -> Event) (data : T)
  : State -> State :=
  emit (Dispatch (event data)).

(** The guard [opt_data_size && data.length < opt_data_size];
    [opt_data_size] is [None] when the argument is left out, and 0 is falsy
    like [undefined]. *)
Definition too_short (data : Buffer) (opt_data_size : option Z) : bool :=
  match opt_data_size with
  | Some size => negb (size =? 0) && (Z.of_nat (length data) <? size)
  | None => false
  end.

(** The guard [sensorDataCache_[index_type] !== undefined &&
    isArrayBufferEqual(sensorDataCache_[index_type], data)]. *)
Definition is_cached (index_type : Z) (data : Buffer) (s : State) : bool :=
  match sensorDataCache_ s !! index_type with
  | Some old => isArrayBufferEqual old data
  | None => false
  end.

(** [handleSensorData_]. The [switch] takes the first case whose value
    equals [index_type]. *)
Definition handleSensorData_ (index_type : Z) (data : Buffer)
    (opt_data_size : option Z) (s : State) : State :=
  if too_short data opt_data_size then s
  else if is_cached index_type data s then s
  else
    let s1 := set_sensorDataCache_ (<[index_type := data]> (sensorDataCache_ s)) s in
    if index_type =? INNER_BUTTON CallbackType then
      dispatchSensorEvent_ index_type ButtonPressed (data !! 0%nat) s1
    else if index_type =? LIGHTSENSOR CallbackType then
      dispatchSensorEvent_ index_type LightnessSensorValue
        (Codec.parseFloatBytes_ data) s1
    else if index_type =? LINEFOLLOWER CallbackType then
      dispatchSensorEvent_ index_type LinefollowerSensorValue
        {| lf_left := JS.ge (data !! 3%nat) 64;
           lf_right := JS.ge (data !! 2%nat) 64;
           lf_raw := data |} s1
    else if index_type =? ULTRASONIC CallbackType then
      dispatchSensorEvent_ index_type UltrasonicSensorValue
        (Codec.parseFloatBytes_ data) s1
    else s1.

(** [case c:] of a [switch] on an array element. *)
Definition is_case (v : JS.element) (c : Z) : bool :=
  match v with
  | Some x => x =? c
  | None => false
  end.

(** [handleData_]. *)
Definition handleData_ (dataBuffer : Buffer) (s : State) : State :=
  let len := dataBuffer !! 1%nat in
  let indexType := dataBuffer !! 2%nat in
  let dataType := dataBuffer !! 3%nat in
  let data := drop 4 dataBuffer in
  if is_case indexType (VERSION CallbackType) then
    emit (Log "info" [LogText "mBot Firmware"; LogBytes data]) s
  else if is_case indexType (ULTRASONIC CallbackType)
       || is_case indexType (LINEFOLLOWER CallbackType)
       || is_case indexType (LIGHTSENSOR CallbackType) then
    handleSensorData_ (default 0 indexType) data (Some 4) s
  else if is_case indexType (INNER_BUTTON CallbackType) then
    handleSensorData_ (default 0 indexType) data None s
  else
    emit (Log "info" [LogText "UNKNOWN index"; LogValue len; LogValue indexType;
                      LogValue dataType; LogBytes dataBuffer]) s.

(** The [for] loop of [handleOnReceive_] over the frames read. *)
Fixpoint handleOnReceive_loop (data : list Buffer) (s : State) : State :=
  match data with
  | [] => s
  | dataBuffer :: rest =>
      handleOnReceive_loop rest
        (if (4 <? length dataBuffer)%nat then handleData_ dataBuffer s else s)
  end.

(** [handleOnReceive_], given the bytes [e.data] of the receive event. *)
Definition handleOnReceive_ (e_data : Buffer) (s : State) : State :=
  let '(data, kept) := readByHeaderAndFooter (streamReader_ s) e_data in
  let s1 := set_streamReader_ kept s in
  match data with
  | None => s1
  | Some frames => handleOnReceive_loop frames s1
  end.

End Api.

(** *** Using the engine

    The calls the exported methods offer, together with the two things the
    environment does to the engine: a receive event on the device and a
    change of the devices' links. A call that throws hands the state it has
    reached on to the next call. *)
Inductive Call :=
| CallConnect (dev : option Device)
| CallPrepare
| CallDisconnect
| CallExec (command : string) (data : option Params)
| CallGetBuffer (command : string) (data : option Params)
| CallCleanUp
| CallReset
| CallMonitor (enable : bool)
| OnReceive (e_data : Buffer)
| LinkChange (links : gset Device).

Definition call (ct : CallbackTypeEnum) (handler : gmap string (Params -> Buffer))
    (reader : Buffer -> Buffer -> option (list Buffer) * Buffer)
    (c : Call) (s : State) : State :=
  match c with
  | CallConnect dev => final (connect handler dev s)
  | CallPrepare => final (prepare handler s)
  | CallDisconnect => final (disconnect handler s)
  | CallExec command data => final (exec handler command data s)
  | CallGetBuffer command data => final (getBuffer handler command data s)
  | CallCleanUp => final (cleanUp handler s)
  | CallReset => final (reset handler s)
  | CallMonitor enable => final (monitor enable s)
  | OnReceive e_data => handleOnReceive_ ct reader e_data s
  | LinkChange links => set_linked links s
  end.

Fixpoint calls (ct : CallbackTypeEnum) (handler : gmap string (Params -> Buffer))
    (reader : Buffer -> Buffer -> option (list Buffer) * Buffer)
    (cs : list Call) (s : State) : State :=
  match cs with
  | [] => s
  | c :: rest => calls ct handler reader rest (call ct handler reader c s)
  end.

(** A computation keeps a property of the state when the state it ends
    in, returning or throwing, has the property whenever the state it
    started in has it. *)
Definition keeps {A} (P : State -> Prop) (m : M A) : Prop :=
  forall s, P s -> P (final (m s)).

(** The properties the elementary steps of the exported methods keep:
    emitting an effect other than a dispatched event, attaching a device,
    emptying the cache, a change of the links, and marking prepared an
    engine that has a device. *)
Record stable (P : State -> Prop) : Prop := {
  stable_emit : forall e s, (forall ev, e <> Dispatch ev) -> P s -> P (emit e s);
  stable_device : forall d s, P s -> P (set_device (Some d) s);
  stable_cache : forall s, P s -> P (set_sensorDataCache_ ∅ s);
  stable_linked : forall l s, P s -> P (set_linked l s);
  stable_prepared : forall s, P s -> is_Some (device s) -> P (set_prepared true s);
}.

(** The index types [handleSensorData_] has a case for, and those
    [handleData_] passes on with the minimum size 4. *)
Definition sensor_index (ct : CallbackTypeEnum) (idx : Z) : Prop :=
  idx = INNER_BUTTON ct \/ idx = LIGHTSENSOR ct
  \/ idx = LINEFOLLOWER ct \/ idx = ULTRASONIC ct.

Definition sized_index (ct : CallbackTypeEnum) (idx : Z) : Prop :=
  idx = ULTRASONIC ct \/ idx = LINEFOLLOWER ct \/ idx = LIGHTSENSOR ct.

(** What the receive path puts into the cache: non-empty payloads of
    sensor index types, of at least 4 bytes where 4 is the minimum. *)
Definition cache_ok (ct : CallbackTypeEnum) (s : State) : Prop :=
  forall (idx : Z) (data : Buffer),
    sensorDataCache_ s !! idx = Some data ->
    sensor_index ct idx
    /\ (1 <= length data)%nat
    /\ (sized_index ct idx -> (4 <= length data)%nat).

(** The receive path only adds to the trace and leaves the connection
    alone. *)
Definition passive (s s' : State) : Prop :=
  device s' = device s
  /\ prepared s' = prepared s
  /\ linked s' = linked s
  /\ streamReader_ s' = streamReader_ s
  /\ sent (trace s') = sent (trace s)
  /\ trace s `prefix_of` trace s'.

(** No [ButtonPressed] event in a trace carries [undefined]. *)
Definition buttons_defined (t : list Effect) : Prop :=
  Dispatch (ButtonPressed None) ∉ t.

(** *** Sample collaborators, used to run the engine on concrete inputs *)

Definition sample_CallbackType : CallbackTypeEnum :=
  {| VERSION := 9; ULTRASONIC := 16; LINEFOLLOWER := 17;
     LIGHTSENSOR := 18; INNER_BUTTON := 128 |}.

(** A little-endian 16-bit field of an outbound command. *)
Definition short_le (v : Z) : Buffer := [Z.land v 255; Z.land (Z.shiftr v 8) 255].

Definition sample_handler : gmap string (Params -> Buffer) :=
  {[ "playTone" := fun data : Params =>
       [255; 85; 7; 0; 2; 34] ++ short_le (default 0 (data !! "frequency"))
                              ++ short_le (default 0 (data !! "duration"));
     "getVersion" := fun _ : Params => [255; 85; 3; 9; 1; 0];
     "stop" := fun _ : Params => [255; 85; 6; 0; 2; 5; 0; 0; 0; 0] ]}.

(** A reader that hands every chunk on as one frame and buffers nothing. *)
Definition sample_reader (buffered chunk : Buffer) : option (list Buffer) * Buffer :=
  (Some [buffered ++ chunk], []).

(** A fresh engine next to two linked devices, the engine after
    [connect] to the first, and after an ultrasonic frame has come in. *)
Definition fresh_engine : State := construct {[ "A"; "B" ]}.

Definition connected_engine : State :=
  final (connect sample_handler (Some "A") fresh_engine).

Definition ultrasonic_frame : Buffer := [255; 85; 16; 2; 0; 0; 72; 67; 13; 10].

Definition running_engine : State :=
  handleOnReceive_ sample_CallbackType sample_reader ultrasonic_frame connected_engine.

End Mbot.

Import Mbot.

Example fourBytesToInt_sample : Codec.fourBytesToInt_ 67 72 0 0 = 1128792064.
Proof. reflexivity. Qed.

Example fourBytesToInt_negative : Codec.fourBytesToInt_ 255 255 255 254 = -2.
Proof. reflexivity. Qed.

Example ieee754_binary32_minus_three :
  exists q, Codec.ieee754_binary32 3225419776 = Codec.B32_finite q /\ (q == -3)%Q.
Proof. eexists. split; reflexivity. Qed.

Example ieee754_binary32_infinity :
  Codec.ieee754_binary32 2139095040 = Codec.B32_infinity false.
Proof. reflexivity. Qed.

Example intBitsToFloat_minus_three : (Codec.intBitsToFloat_ (-1069547520) == -3)%Q.
Proof. reflexivity. Qed.

Example nearest_double_tenth :
  Codec.nearest_double (1 # 10) = (3602879701896397 # 36028797018963968)%Q.
Proof. vm_compute. reflexivity. Qed.

Example nearest_double_ties_to_even :
  Codec.nearest_double (inject_Z 9007199254740993) = inject_Z 9007199254740992
  /\ Codec.nearest_double (inject_Z 9007199254740995) = inject_Z 9007199254740996.
Proof. vm_compute. split; reflexivity. Qed.

Example toFixed2_tie_away_from_zero :
  Codec.toFixed2 (1 # 8) = (1170935903116329 # 9007199254740992)%Q
  /\ Codec.toFixed2 (-1 # 8) = (-1170935903116329 # 9007199254740992)%Q.
Proof. vm_compute. split; reflexivity. Qed.

Example parseFloatBytes_rounds :
  Codec.parseFloatBytes_ [195; 245; 72; 64] = (7070651414971679 # 2251799813685248)%Q.
Proof. vm_compute. reflexivity. Qed.

Example parseFloatBytes_200 : Codec.parseFloatBytes_ [0; 0; 72; 67] = 200%Q.
Proof. vm_compute. reflexivity. Qed.

(** ** Properties of the 32-bit operators *)

(** Unfold the powers of two that occur, so that [lia] sees numerals. *)
Ltac pow_numerals :=
  change (2 ^ 32) with 4294967296 in *;
  change (2 ^ 31) with 2147483648 in *;
  change (2 ^ 24) with 16777216 in *;
  change (2 ^ 23) with 8388608 in *;
  change (2 ^ 16) with 65536 in *;
  change (2 ^ 8) with 256 in *.

Ltac int32_lia := pow_numerals; Z.to_euclidean_division_equations; lia.

Lemma ToInt32_range x : - 2 ^ 31 <= JS.ToInt32 x < 2 ^ 31.
Proof. unfold JS.ToInt32. int32_lia. Qed.

Lemma ToInt32_small x : - 2 ^ 31 <= x < 2 ^ 31 -> JS.ToInt32 x = x.
Proof. unfold JS.ToInt32. int32_lia. Qed.

Lemma ToInt32_mod x : JS.ToInt32 x mod 2 ^ 32 = x mod 2 ^ 32.
Proof. unfold JS.ToInt32. int32_lia. Qed.

(** The int32 value in terms of the unsigned 32-bit pattern. *)
Lemma ToInt32_pattern x :
  JS.ToInt32 x = if x mod 2 ^ 32 <? 2 ^ 31 then x mod 2 ^ 32 else x mod 2 ^ 32 - 2 ^ 32.
Proof. unfold JS.ToInt32. destruct (Z.ltb_spec (x mod 2 ^ 32) (2 ^ 31)); int32_lia. Qed.

Lemma shl_byte b k :
  0 <= b <= 255 -> 0 <= k < 32 -> JS.shl b k = JS.ToInt32 (b * 2 ^ k).
Proof.
  intros Hb Hk. unfold JS.shl.
  rewrite (ToInt32_small b) by int32_lia.
  rewrite Z.mod_small by int32_lia.
  now rewrite Z.shiftl_mul_pow2 by int32_lia.
Qed.

Lemma sar_sign num :
  JS.sar num 31 = if num mod 2 ^ 32 <? 2 ^ 31 then 0 else -1.
Proof.
  unfold JS.sar. change (31 mod 32) with 31.
  rewrite Z.shiftr_div_pow2 by int32_lia. rewrite ToInt32_pattern.
  destruct (Z.ltb_spec (num mod 2 ^ 32) (2 ^ 31)); int32_lia.
Qed.

Lemma band_exponent num :
  JS.band (JS.sar num 23) 255 = (num mod 2 ^ 32 / 2 ^ 23) mod 2 ^ 8.
Proof.
  unfold JS.band, JS.sar. change (23 mod 32) with 23.
  rewrite Z.shiftr_div_pow2 by int32_lia.
  pose proof (ToInt32_range num) as Hr.
  rewrite (ToInt32_small (JS.ToInt32 num / 2 ^ 23)) by int32_lia.
  change (JS.ToInt32 255) with (Z.ones 8).
  rewrite Z.land_ones by int32_lia.
  rewrite ToInt32_pattern.
  destruct (Z.ltb_spec (num mod 2 ^ 32) (2 ^ 31)); int32_lia.
Qed.

Lemma band_fraction num :
  JS.band num 8388607 = (num mod 2 ^ 32) mod 2 ^ 23.
Proof.
  unfold JS.band. change (JS.ToInt32 8388607) with (Z.ones 23).
  rewrite Z.land_ones by int32_lia. rewrite ToInt32_pattern.
  destruct (Z.ltb_spec (num mod 2 ^ 32) (2 ^ 31)); int32_lia.
Qed.

Lemma bor_implicit_bit f :
  0 <= f < 2 ^ 23 -> JS.bor f 8388608 = f + 2 ^ 23.
Proof.
  intros Hf. unfold JS.bor.
  rewrite (ToInt32_small f) by int32_lia.
  change (JS.ToInt32 8388608) with (2 ^ 23).
  symmetry. apply Z.add_nocarry_lor.
  apply Z.bits_inj'. intros n Hn.
  rewrite Z.land_spec, Z.bits_0, Z.pow2_bits_eqb by int32_lia.
  destruct (Z.eqb_spec 23 n) as [<-|]; [|apply andb_false_r].
  rewrite andb_true_r.
  replace f with (f mod 2 ^ 23) by (apply Z.mod_small; lia).
  apply Z.mod_pow2_bits_high. lia.
Qed.

Lemma land_byte x : Z.land x 255 = x mod 2 ^ 8.
Proof. change 255 with (Z.ones 8). apply Z.land_ones. lia. Qed.

Lemma sign_field_pattern num :
  Codec.sign_field (num mod 2 ^ 32) = negb (num mod 2 ^ 32 <? 2 ^ 31).
Proof.
  unfold Codec.sign_field.
  destruct (Z.ltb_spec (num mod 2 ^ 32) (2 ^ 31)) as [Hlt|Hge]; cbn [negb].
  - apply Z.testbit_false; [lia|]. int32_lia.
  - apply Z.testbit_true; [lia|]. int32_lia.
Qed.

(** ** The codec *)

(** C5: for bytes b1..b4 in 0..255, [fourBytesToInt_] is the signed
    two's-complement 32-bit integer with most significant byte b1 and least
    significant byte b4: it lies in the int32 range, it is the signed
    reading of b1*2^24 + b2*2^16 + b3*2^8 + b4, and its four bytes, read
    off with shifts and masks, are b1, b2, b3 and b4. *)
Theorem fourBytesToInt_signed_big_endian (b1 b2 b3 b4 : Z) :
  0 <= b1 <= 255 -> 0 <= b2 <= 255 -> 0 <= b3 <= 255 -> 0 <= b4 <= 255 ->
  - 2 ^ 31 <= Codec.fourBytesToInt_ b1 b2 b3 b4 < 2 ^ 31
  /\ Codec.fourBytesToInt_ b1 b2 b3 b4
     = JS.ToInt32 (b1 * 2 ^ 24 + b2 * 2 ^ 16 + b3 * 2 ^ 8 + b4)
  /\ Codec.fourBytesToInt_ b1 b2 b3 b4 mod 2 ^ 32
     = b1 * 2 ^ 24 + b2 * 2 ^ 16 + b3 * 2 ^ 8 + b4
  /\ Z.land (Z.shiftr (Codec.fourBytesToInt_ b1 b2 b3 b4) 24) 255 = b1
  /\ Z.land (Z.shiftr (Codec.fourBytesToInt_ b1 b2 b3 b4) 16) 255 = b2
  /\ Z.land (Z.shiftr (Codec.fourBytesToInt_ b1 b2 b3 b4) 8) 255 = b3
  /\ Z.land (Codec.fourBytesToInt_ b1 b2 b3 b4) 255 = b4.
Proof.
  intros H1 H2 H3 H4. unfold Codec.fourBytesToInt_.
  rewrite !shl_byte by lia.
  rewrite (ToInt32_small (b2 * 2 ^ 16)) by int32_lia.
  rewrite (ToInt32_small (b3 * 2 ^ 8)) by int32_lia.
  assert (Hsum : JS.ToInt32 (b1 * 2 ^ 24) + b2 * 2 ^ 16 + b3 * 2 ^ 8 + b4
                 = JS.ToInt32 (b1 * 2 ^ 24 + b2 * 2 ^ 16 + b3 * 2 ^ 8 + b4)).
  { unfold JS.ToInt32. int32_lia. }
  rewrite Hsum.
  rewrite !land_byte, !Z.shiftr_div_pow2 by lia.
  pose proof (ToInt32_range (b1 * 2 ^ 24 + b2 * 2 ^ 16 + b3 * 2 ^ 8 + b4)) as Hr.
  pose proof (ToInt32_mod (b1 * 2 ^ 24 + b2 * 2 ^ 16 + b3 * 2 ^ 8 + b4)) as Hm.
  repeat split; try lia; int32_lia.
Qed.

Lemma fourBytesToInt_signed_big_endian_witness :
  Codec.fourBytesToInt_ 255 255 255 254 = JS.ToInt32 (255 * 2 ^ 24 + 255 * 2 ^ 16 + 255 * 2 ^ 8 + 254).
Proof.
  apply (fourBytesToInt_signed_big_endian 255 255 255 254); lia.
Defined.

(** The three fields [intBitsToFloat_] extracts, in terms of the pattern. *)
Lemma intBitsToFloat_fields num :
  Codec.exponent_field (num mod 2 ^ 32) <> 0 ->
  Codec.intBitsToFloat_ num =
    (inject_Z (if Codec.sign_field (num mod 2 ^ 32) then -1 else 1)
     * inject_Z (Codec.fraction_field (num mod 2 ^ 32) + 2 ^ 23)
     * Codec.pow2 (Codec.exponent_field (num mod 2 ^ 32) - 150))%Q.
Proof.
  intros He. unfold Codec.intBitsToFloat_.
  rewrite sar_sign, band_exponent, band_fraction, sign_field_pattern.
  fold (Codec.exponent_field (num mod 2 ^ 32)).
  fold (Codec.fraction_field (num mod 2 ^ 32)).
  destruct (Z.eqb_spec (Codec.exponent_field (num mod 2 ^ 32)) 0) as [|_]; [done|].
  rewrite bor_implicit_bit by (unfold Codec.fraction_field; int32_lia).
  now destruct (num mod 2 ^ 32 <? 2 ^ 31).
Qed.

(** C2: for every 32-bit pattern whose exponent field is neither 0 nor 255,
    [intBitsToFloat_] returns sign x mantissa x 2^(exponent-150), the sign
    taken from bit 31 and the implicit leading bit ORed into the mantissa,
    and this is the value the IEEE-754 binary32 decoding gives the pattern;
    0x43480000 decodes to 200 and 0x00000000 to 0. *)
Theorem intBitsToFloat_normal_ieee754 (num : Z) :
  Codec.exponent_field (num mod 2 ^ 32) <> 0 ->
  Codec.exponent_field (num mod 2 ^ 32) <> 255 ->
  (Codec.intBitsToFloat_ num ==
     inject_Z (if Codec.sign_field (num mod 2 ^ 32) then -1 else 1)
     * inject_Z (Z.lor (Codec.fraction_field (num mod 2 ^ 32)) (2 ^ 23))
     * Qpower 2 (Codec.exponent_field (num mod 2 ^ 32) - 150))%Q
  /\ (exists q : Q,
        Codec.ieee754_binary32 (num mod 2 ^ 32) = Codec.B32_finite q
        /\ (Codec.intBitsToFloat_ num == q)%Q)
  /\ (Codec.intBitsToFloat_ 1128792064 == 200)%Q
  /\ (Codec.intBitsToFloat_ 0 == 0)%Q.
Proof.
  intros He0 He255.
  rewrite (intBitsToFloat_fields num He0).
  assert (Hf : 0 <= Codec.fraction_field (num mod 2 ^ 32) < 2 ^ 23)
    by (unfold Codec.fraction_field; int32_lia).
  split; [|split; [|split; reflexivity]].
  - pose proof (bor_implicit_bit _ Hf) as Hor. unfold JS.bor in Hor.
    rewrite (ToInt32_small (Codec.fraction_field _)) in Hor by int32_lia.
    change (JS.ToInt32 8388608) with (2 ^ 23) in Hor.
    rewrite Hor. reflexivity.
  - eexists. split.
    + unfold Codec.ieee754_binary32.
      destruct (Z.eqb_spec (Codec.exponent_field (num mod 2 ^ 32)) 255); [lia|].
      destruct (Z.eqb_spec (Codec.exponent_field (num mod 2 ^ 32)) 0); [lia|].
      reflexivity.
    + unfold Codec.pow2.
      replace (Codec.exponent_field (num mod 2 ^ 32) - 150)
        with ((Codec.exponent_field (num mod 2 ^ 32) - 127) + (-23)) by lia.
      rewrite Qpower_plus by discriminate.
      generalize (Qpower 2 (Codec.exponent_field (num mod 2 ^ 32) - 127)).
      intros P. rewrite inject_Z_plus.
      change (Qpower 2 (-23)) with (/ inject_Z (2 ^ 23))%Q.
      field. discriminate.
Qed.

Lemma intBitsToFloat_normal_ieee754_witness :
  exists q : Q,
    Codec.ieee754_binary32 (3225419776 mod 2 ^ 32) = Codec.B32_finite q
    /\ (Codec.intBitsToFloat_ 3225419776 == q)%Q.
Proof.
  apply (intBitsToFloat_normal_ieee754 3225419776); vm_compute; discriminate.
Defined.

(** ** The engine on concrete inputs *)

Example connected_engine_trace :
  trace connected_engine =
    [ Log "info" [LogText "Preparing bluetooth api for"; LogText "A"];
      Listen "A";
      DeviceSend "A" [255; 85; 7; 0; 2; 34; 12; 2; 240; 0];
      DeviceSend "A" [255; 85; 7; 0; 2; 34; 72; 2; 240; 0];
      DeviceSend "A" [255; 85; 3; 9; 1; 0];
      MonitoringStart ].
Proof. vm_compute. reflexivity. Qed.

Example running_engine_cache :
  sensorDataCache_ running_engine !! 16 = Some [0; 0; 72; 67; 13; 10]
  /\ dispatched (trace running_engine) = [UltrasonicSensorValue 200].
Proof. vm_compute. split; reflexivity. Qed.

(** ** The response dispatcher and its change-detection cache *)

Section Dispatcher.

Variable ct : CallbackTypeEnum.

Lemma too_short_4 (data : Buffer) :
  (length data < 4)%nat -> too_short data (Some 4) = true.
Proof.
  intros Hlen. unfold too_short. cbn [Z.eqb negb andb].
  apply Z.ltb_lt. lia.
Qed.

Lemma long_enough_4 (data : Buffer) :
  (4 <= length data)%nat -> too_short data (Some 4) = false.
Proof.
  intros Hlen. unfold too_short. cbn [Z.eqb negb andb].
  apply Z.ltb_ge. lia.
Qed.

Lemma is_cached_spec idx (data : Buffer) s :
  is_cached idx data s = true <-> sensorDataCache_ s !! idx = Some data.
Proof.
  unfold is_cached, isArrayBufferEqual.
  destruct (sensorDataCache_ s !! idx) as [old|]; [|done].
  rewrite bool_decide_eq_true. split; congruence.
Qed.

Lemma is_cached_false idx (data : Buffer) s :
  is_cached idx data s = false <-> sensorDataCache_ s !! idx <> Some data.
Proof.
  rewrite <- is_cached_spec. now destruct (is_cached idx data s).
Qed.

(** A payload that is dropped or suppressed leaves the state as it is. *)
Lemma handleSensorData_dropped idx (data : Buffer) size s :
  too_short data size = true -> handleSensorData_ ct idx data size s = s.
Proof. intros H. unfold handleSensorData_. now rewrite H. Qed.

Lemma handleSensorData_suppressed idx (data : Buffer) size s :
  is_cached idx data s = true -> handleSensorData_ ct idx data size s = s.
Proof.
  intros H. unfold handleSensorData_. rewrite H.
  now destruct (too_short data size).
Qed.

(** A payload that gets through is cached, and at most one event follows. *)
Lemma handleSensorData_accepted idx (data : Buffer) size s :
  too_short data size = false -> is_cached idx data s = false ->
  sensorDataCache_ (handleSensorData_ ct idx data size s)
    = <[idx := data]> (sensorDataCache_ s)
  /\ (trace (handleSensorData_ ct idx data size s) = trace s
      \/ exists ev, trace (handleSensorData_ ct idx data size s)
                    = trace s ++ [Dispatch ev]).
Proof.
  intros Hs Hc. unfold handleSensorData_. rewrite Hs, Hc.
  unfold dispatchSensorEvent_.
  repeat (match goal with |- context [if ?b then _ else _] => destruct b end);
    cbn; eauto.
Qed.

(** For the four sensor index types exactly one event follows. *)
Lemma handleSensorData_accepted_sensor idx (data : Buffer) size s :
  too_short data size = false -> is_cached idx data s = false ->
  idx = INNER_BUTTON ct \/ idx = LIGHTSENSOR ct
  \/ idx = LINEFOLLOWER ct \/ idx = ULTRASONIC ct ->
  exists ev, trace (handleSensorData_ ct idx data size s) = trace s ++ [Dispatch ev].
Proof.
  intros Hs Hc Hidx. unfold handleSensorData_. rewrite Hs, Hc.
  unfold dispatchSensorEvent_.
  destruct (Z.eqb_spec idx (INNER_BUTTON ct)); [cbn; eauto|].
  destruct (Z.eqb_spec idx (LIGHTSENSOR ct)); [cbn; eauto|].
  destruct (Z.eqb_spec idx (LINEFOLLOWER ct)); [cbn; eauto|].
  destruct (Z.eqb_spec idx (ULTRASONIC ct)); [cbn; eauto|].
  intuition congruence.
Qed.

(** C1: a payload that is the cached value for its index type dispatches
    no event and leaves the whole state, the cache included, unchanged; so
    of two consecutive deliveries of a payload that the first delivery makes
    the cached value of a sensor index type (it meets the size bound and
    was not the cached value before) exactly one dispatches an event: the
    first does, the second is suppressed; and the cache entry of an index
    type changes only when the payload meets the size bound and differs
    bytewise from a stored one (or none is stored), and then it becomes the
    payload. *)
Theorem handleSensorData_change_detection (idx : Z) (data : Buffer)
    (size : option Z) (s : State) :
  (sensorDataCache_ s !! idx = Some data ->
     handleSensorData_ ct idx data size s = s)
  /\ (sensorDataCache_ (handleSensorData_ ct idx data size s) <> sensorDataCache_ s ->
        too_short data size = false
        /\ sensorDataCache_ s !! idx <> Some data
        /\ sensorDataCache_ (handleSensorData_ ct idx data size s)
           = <[idx := data]> (sensorDataCache_ s))
  /\ (too_short data size = false ->
      sensorDataCache_ s !! idx <> Some data ->
      idx = INNER_BUTTON ct \/ idx = LIGHTSENSOR ct
      \/ idx = LINEFOLLOWER ct \/ idx = ULTRASONIC ct ->
      exists ev,
        dispatched (trace (handleSensorData_ ct idx data size s))
          = dispatched (trace s) ++ [ev]
        /\ handleSensorData_ ct idx data size (handleSensorData_ ct idx data size s)
           = handleSensorData_ ct idx data size s
        /\ dispatched (trace (handleSensorData_ ct idx data size
                                (handleSensorData_ ct idx data size s)))
           = dispatched (trace s) ++ [ev]).
Proof.
  split; [|split].
  - intros Hc. apply handleSensorData_suppressed. now apply is_cached_spec.
  - intros Hne.
    destruct (too_short data size) eqn:Hs.
    { now rewrite handleSensorData_dropped in Hne. }
    destruct (is_cached idx data s) eqn:Hc.
    { now rewrite handleSensorData_suppressed in Hne. }
    split; [done|]. split; [now apply is_cached_false|].
    now apply handleSensorData_accepted.
  - intros Hs Hc Hidx. apply is_cached_false in Hc.
    destruct (handleSensorData_accepted_sensor idx data size s Hs Hc Hidx)
      as [ev Hev].
    destruct (handleSensorData_accepted idx data size s Hs Hc) as [Hcache _].
    assert (Hagain : handleSensorData_ ct idx data size
                       (handleSensorData_ ct idx data size s)
                     = handleSensorData_ ct idx data size s).
    { apply handleSensorData_suppressed, is_cached_spec.
      rewrite Hcache. apply lookup_insert_eq. }
    exists ev. rewrite Hagain, Hev.
    unfold dispatched. rewrite omap_app. cbn. done.
Qed.

End Dispatcher.

Lemma handleSensorData_change_detection_witness :
  exists ev,
    dispatched (trace (handleSensorData_ sample_CallbackType 16 [0; 0; 72; 67] (Some 4)
                         fresh_engine))
      = dispatched (trace fresh_engine) ++ [ev]
    /\ handleSensorData_ sample_CallbackType 16 [0; 0; 72; 67] (Some 4)
         (handleSensorData_ sample_CallbackType 16 [0; 0; 72; 67] (Some 4) fresh_engine)
       = handleSensorData_ sample_CallbackType 16 [0; 0; 72; 67] (Some 4) fresh_engine
    /\ dispatched (trace (handleSensorData_ sample_CallbackType 16 [0; 0; 72; 67] (Some 4)
         (handleSensorData_ sample_CallbackType 16 [0; 0; 72; 67] (Some 4) fresh_engine)))
       = dispatched (trace fresh_engine) ++ [ev].
Proof.
  destruct (handleSensorData_change_detection sample_CallbackType 16
              [0; 0; 72; 67] (Some 4) fresh_engine) as (_ & _ & Htwice).
  apply Htwice.
  - reflexivity.
  - vm_compute. discriminate.
  - right. right. right. reflexivity.
Defined.

(** C3: for the index types ULTRASONIC, LIGHTSENSOR and LINEFOLLOWER and a
    payload shorter than 4 bytes, [handleSensorData_], called with the
    minimum size 4 as [handleData_] does, returns the state it was given:
    no event, no cache entry created or updated, nothing else changed; and
    so does [handleData_] on a frame of such an index type whose payload
    is that short. *)
Theorem handleSensorData_short_payload_dropped (ct : CallbackTypeEnum)
    (idx : Z) (data : Buffer) (s : State) :
  idx = ULTRASONIC ct \/ idx = LIGHTSENSOR ct \/ idx = LINEFOLLOWER ct ->
  (length data < 4)%nat ->
  handleSensorData_ ct idx data (Some 4) s = s
  /\ (forall dataBuffer : Buffer,
        distinct_index_types ct ->
        dataBuffer !! 2%nat = Some idx ->
        drop 4 dataBuffer = data ->
        handleData_ ct dataBuffer s = s).
Proof.
  intros Hidx Hlen.
  assert (Hdrop : handleSensorData_ ct idx data (Some 4) s = s)
    by (apply handleSensorData_dropped, too_short_4, Hlen).
  split; [exact Hdrop|].
  intros dataBuffer Hct Hi Hd. unfold handleData_. rewrite Hi, Hd. cbn [is_case default].
  unfold distinct_index_types in Hct.
  apply NoDup_cons in Hct as [Hv _].
  destruct (Z.eqb_spec idx (VERSION ct)) as [Heq|_].
  { exfalso. apply Hv. rewrite <- Heq.
    destruct Hidx as [->| [->| ->]]; set_solver. }
  destruct Hidx as [->| [->| ->]]; rewrite ?Z.eqb_refl, ?orb_true_r; cbn [orb];
    exact Hdrop.
Qed.

Lemma handleSensorData_short_payload_dropped_witness :
  handleSensorData_ sample_CallbackType 17 [70; 50; 1] (Some 4) running_engine
    = running_engine
  /\ handleData_ sample_CallbackType [255; 85; 17; 2; 70; 50; 1] running_engine
     = running_engine.
Proof.
  destruct (handleSensorData_short_payload_dropped sample_CallbackType 17
              [70; 50; 1] running_engine) as [Hsensor Hframe].
  - right. right. reflexivity.
  - cbn. lia.
  - split; [exact Hsensor|]. apply Hframe.
    + apply (bool_decide_unpack _). vm_compute. reflexivity.
    + reflexivity.
    + reflexivity.
Defined.

(** C4: a line-follower payload of at least 4 bytes that is not the cached
    value is cached and dispatched as one LinefollowerSensorValue event with
    left = (byte 3 >= 64), right = (byte 2 >= 64) and the raw payload; a
    payload with byte 2 = 70 and byte 3 = 50 gives left = false and
    right = true. *)
Theorem handleSensorData_linefollower (ct : CallbackTypeEnum)
    (data : Buffer) (s : State) :
  distinct_index_types ct ->
  (4 <= length data)%nat ->
  sensorDataCache_ s !! LINEFOLLOWER ct <> Some data ->
  (exists b2 b3 : Z,
      data !! 2%nat = Some b2 /\ data !! 3%nat = Some b3
      /\ handleSensorData_ ct (LINEFOLLOWER ct) data (Some 4) s
         = emit (Dispatch (LinefollowerSensorValue
                   {| lf_left := 64 <=? b3; lf_right := 64 <=? b2; lf_raw := data |}))
             (set_sensorDataCache_
                (<[LINEFOLLOWER ct := data]> (sensorDataCache_ s)) s))
  /\ (data !! 2%nat = Some 70 -> data !! 3%nat = Some 50 ->
      dispatched (trace (handleSensorData_ ct (LINEFOLLOWER ct) data (Some 4) s))
        = dispatched (trace s)
          ++ [LinefollowerSensorValue
                {| lf_left := false; lf_right := true; lf_raw := data |}]).
Proof.
  intros Hct Hlen Hc.
  assert (Hrun : handleSensorData_ ct (LINEFOLLOWER ct) data (Some 4) s
                 = emit (Dispatch (LinefollowerSensorValue
                     {| lf_left := JS.ge (data !! 3%nat) 64;
                        lf_right := JS.ge (data !! 2%nat) 64; lf_raw := data |}))
                     (set_sensorDataCache_
                        (<[LINEFOLLOWER ct := data]> (sensorDataCache_ s)) s)).
  { unfold handleSensorData_.
    rewrite long_enough_4 by exact Hlen.
    apply is_cached_false in Hc. rewrite Hc.
    unfold distinct_index_types in Hct.
    apply NoDup_cons in Hct as [_ Hct]. apply NoDup_cons in Hct as [_ Hct].
    apply NoDup_cons in Hct as [Hlf _].
    destruct (Z.eqb_spec (LINEFOLLOWER ct) (INNER_BUTTON ct)) as [Heq|_];
      [exfalso; apply Hlf; rewrite Heq; set_solver|].
    destruct (Z.eqb_spec (LINEFOLLOWER ct) (LIGHTSENSOR ct)) as [Heq|_];
      [exfalso; apply Hlf; rewrite Heq; set_solver|].
    now rewrite Z.eqb_refl. }
  split.
  - destruct (lookup_lt_is_Some_2 data 2) as [b2 H2]; [lia|].
    destruct (lookup_lt_is_Some_2 data 3) as [b3 H3]; [lia|].
    exists b2, b3. rewrite Hrun, H2, H3. done.
  - intros H2 H3. rewrite Hrun, H2, H3. cbn.
    unfold dispatched. rewrite omap_app. done.
Qed.

Lemma handleSensorData_linefollower_witness :
  dispatched (trace (handleSensorData_ sample_CallbackType
                       (LINEFOLLOWER sample_CallbackType) [0; 0; 70; 50] (Some 4)
                       fresh_engine))
    = dispatched (trace fresh_engine)
      ++ [LinefollowerSensorValue
            {| lf_left := false; lf_right := true; lf_raw := [0; 0; 70; 50] |}].
Proof.
  destruct (handleSensorData_linefollower sample_CallbackType [0; 0; 70; 50]
              fresh_engine) as [_ Hsample].
  - apply (bool_decide_unpack _). vm_compute. reflexivity.
  - cbn. lia.
  - vm_compute. discriminate.
  - apply Hsample; reflexivity.
Defined.

(** C10: a frame of 4 bytes or less, such as the bare acknowledgement
    0xFF 0x55 0x0D 0x0A, is skipped by [handleOnReceive_]: the state reached
    after the frames before it is handed unchanged to the frames after it,
    and when every frame read is that short, nothing but the reader's
    buffer changes: no event is dispatched and the sensor cache is as it
    was. *)
Theorem handleOnReceive_short_frame_discarded (ct : CallbackTypeEnum)
    (reader : Buffer -> Buffer -> option (list Buffer) * Buffer)
    (chunk : Buffer) (s : State) (frames : list Buffer) (kept : Buffer) :
  reader (streamReader_ s) chunk = (Some frames, kept) ->
  (forall (pre post : list Buffer) (f : Buffer),
      frames = pre ++ f :: post -> (length f <= 4)%nat ->
      handleOnReceive_ ct reader chunk s
      = handleOnReceive_loop ct post
          (handleOnReceive_loop ct pre (set_streamReader_ kept s)))
  /\ (Forall (fun f : Buffer => (length f <= 4)%nat) frames ->
      handleOnReceive_ ct reader chunk s = set_streamReader_ kept s
      /\ dispatched (trace (handleOnReceive_ ct reader chunk s)) = dispatched (trace s)
      /\ sensorDataCache_ (handleOnReceive_ ct reader chunk s) = sensorDataCache_ s)
  /\ (frames = [[255; 85; 13; 10]] ->
      handleOnReceive_ ct reader chunk s = set_streamReader_ kept s).
Proof.
  intros Hread. unfold handleOnReceive_. rewrite Hread.
  assert (Happ : forall a b s0,
             handleOnReceive_loop ct (a ++ b) s0
             = handleOnReceive_loop ct b (handleOnReceive_loop ct a s0)).
  { induction a as [|x a IH]; intros b s0; [reflexivity|]. cbn. apply IH. }
  assert (Hshort : forall fs s0,
             Forall (fun f : Buffer => (length f <= 4)%nat) fs ->
             handleOnReceive_loop ct fs s0 = s0).
  { intros fs s0 Hall. revert s0.
    induction Hall as [|f fs Hf _ IH]; intros s0; [reflexivity|].
    cbn [handleOnReceive_loop].
    destruct (Nat.ltb_spec 4 (length f)); [lia|]. apply IH. }
  split; [|split].
  - intros pre post f -> Hf. rewrite Happ. cbn [handleOnReceive_loop].
    destruct (Nat.ltb_spec 4 (length f)); [lia|]. reflexivity.
  - intros Hall; rewrite (Hshort frames _ Hall); done.
  - intros ->. apply Hshort. constructor; [cbn; lia | constructor].
Qed.

Lemma handleOnReceive_short_frame_discarded_witness :
  handleOnReceive_ sample_CallbackType sample_reader [255; 85; 13; 10] running_engine
    = set_streamReader_ [] running_engine.
Proof.
  destruct (handleOnReceive_short_frame_discarded sample_CallbackType sample_reader
              [255; 85; 13; 10] running_engine [[255; 85; 13; 10]] [])
    as (_ & _ & Hack).
  - reflexivity.
  - apply Hack. reflexivity.
Defined.

(** ** Connection life cycle and command execution *)

Section Engine.

Variable handler : gmap string (Params -> Buffer).

Lemma run_bind {A B} (m : M A) (k : A -> M B) (s : State) :
  (m ≫= k) s = match m s with
               | Return a s' => k a s'
               | Throw e s' => Throw e s'
               end.
Proof. reflexivity. Qed.

Lemma send_run (buffer : Buffer) (s : State) :
  send buffer s = Return tt (match device s with
                             | Some d => device_send d buffer s
                             | None => s
                             end).
Proof. unfold send. rewrite run_bind. cbn [get]. now destruct (device s). Qed.

Lemma send_value_run (v : Value) (s : State) :
  send_value v s = Return tt (match device s with
                              | Some d => device_send_value d v s
                              | None => s
                              end).
Proof. unfold send_value. rewrite run_bind. cbn [get]. now destruct (device s). Qed.

Lemma exec_run (command : string) (data : option Params) (s : State) :
  exec handler command data s =
    match handler !! command with
    | Some encode => send (encode (default ∅ data)) s
    | None =>
        match Object_prototype !! command with
        | Some (Some v) => send_value v s
        | _ => Throw (TypeError command) s
        end
    end.
Proof.
  unfold exec, call_handler. rewrite run_bind.
  destruct (handler !! command); [reflexivity|].
  now destruct (Object_prototype !! command) as [[v|]|].
Qed.

Lemma preserves_bind {A B C} (proj : State -> C) (m : M A) (k : A -> M B) :
  preserves proj m -> (forall a, preserves proj (k a)) -> preserves proj (m ≫= k).
Proof.
  intros Hm Hk s. rewrite run_bind. specialize (Hm s).
  destruct (m s) as [a s'|e s']; cbn [final] in *; [|exact Hm].
  now rewrite Hk.
Qed.

Lemma preserves_ret {A C} (proj : State -> C) (a : A) : preserves proj (mret a).
Proof. intros s. reflexivity. Qed.

Lemma preserves_throw {A C} (proj : State -> C) (e : Error) :
  preserves proj (throw e : M A).
Proof. intros s. reflexivity. Qed.

Lemma preserves_get {C} (proj : State -> C) : preserves proj get.
Proof. intros s. reflexivity. Qed.

Lemma preserves_lift {C} (proj : State -> C) (f : State -> State) :
  (forall s, proj (f s) = proj s) -> preserves proj (lift f).
Proof. intros Hf s. apply Hf. Qed.

Lemma exec_preserves {C} (proj : State -> C) command data :
  (forall e s, proj (emit e s) = proj s) ->
  preserves proj (exec handler command data).
Proof.
  intros Hemit s. rewrite exec_run.
  destruct (handler !! command).
  - rewrite send_run. cbn [final].
    destruct (device s) as [d|]; [apply Hemit | reflexivity].
  - destruct (Object_prototype !! command) as [[v|]|]; try reflexivity.
    rewrite send_value_run. cbn [final].
    destruct (device s) as [d|]; [apply Hemit | reflexivity].
Qed.

Lemma prepare_preserves_attachment : preserves attachment (prepare handler).
Proof.
  unfold prepare.
  repeat (apply preserves_bind; [|intros _]);
    try (apply exec_preserves; reflexivity).
  - unfold listen_on_receive. apply preserves_bind; [apply preserves_get|].
    intros s0. destruct (device s0);
      [apply preserves_lift; reflexivity | apply preserves_throw].
  - unfold monitor. apply preserves_bind; [apply preserves_get|].
    intros s0. destruct (true && isConnected s0); [apply preserves_lift; reflexivity|].
    apply preserves_ret.
  - apply preserves_lift. reflexivity.
Qed.

End Engine.

Lemma sent_emit_send (t : list Effect) (d : Device) (b : Buffer) :
  sent (t ++ [DeviceSend d b]) = sent t ++ [(d, b)].
Proof. unfold sent. now rewrite omap_app. Qed.

Lemma sent_emit_other (t : list Effect) (e : Effect) :
  (forall d b, e <> DeviceSend d b) -> sent (t ++ [e]) = sent t.
Proof.
  intros He. unfold sent. rewrite omap_app. cbn.
  destruct e; rewrite ?app_nil_r; try reflexivity.
  now destruct (He d buffer).
Qed.

(** Run the bind at the head of a computation applied to a state. *)
Ltac run_step :=
  match goal with
  | |- context [@mbind M M_bind ?A ?B ?k ?m ?s] => rewrite (run_bind m k s)
  end.

(** Run binds, reads and non-throwing steps until something else is met. *)
Ltac run := repeat first [run_step | progress (cbn [lift get])].

(** One [exec] of a command the table knows, on an engine with a device. *)
Ltac run_exec H :=
  rewrite exec_run, H, send_run;
  cbn [device emit device_send set_device]; run.

(** C6: [connect] on an unprepared engine with a linked device runs the
    first part of [prepare] into a state in which exactly three commands
    have gone out to that device, playTone(524, 240), playTone(584, 240) and
    getVersion in this order, while the engine is not yet marked prepared
    and monitoring has not been started by it; only then does [prepare]
    start monitoring and set the prepared flag, sending nothing more. *)
Theorem connect_sends_three_commands_first
    (handler : gmap string (Params -> Buffer))
    (playTone getVersion : Params -> Buffer) (d : Device) (s : State) :
  handler !! "playTone" = Some playTone ->
  handler !! "getVersion" = Some getVersion ->
  prepared s = false ->
  device_isConnected d s = true ->
  exists s3 : State,
    (listen_on_receive;;
     exec handler "playTone" (Some {[ "frequency" := 524; "duration" := 240 ]});;
     exec handler "playTone" (Some {[ "frequency" := 584; "duration" := 240 ]});;
     exec handler "getVersion" None)
      (set_device (Some d)
         (emit (Log "info" [LogText "Preparing bluetooth api for"; LogText d]) s))
    = Return tt s3
    /\ sent (trace s3)
       = sent (trace s)
         ++ [ (d, playTone {[ "frequency" := 524; "duration" := 240 ]});
              (d, playTone {[ "frequency" := 584; "duration" := 240 ]});
              (d, getVersion ∅) ]
    /\ prepared s3 = false
    /\ monitoring_started (trace s3) = monitoring_started (trace s)
    /\ connect handler (Some d) s = Return true (set_prepared true (monitoring_start s3))
    /\ sent (trace (set_prepared true (monitoring_start s3))) = sent (trace s3).
Proof.
  intros Htone Hversion Hprep Hlink.
  eexists. split; [|split; [|split; [|split; [|split]]]].
  - unfold listen_on_receive. run. cbn [device set_device emit]. run.
    run_exec Htone. run_exec Htone. run_exec Hversion.
    reflexivity.
  - cbn [trace emit device_send set_device default].
    rewrite !sent_emit_send.
    rewrite !sent_emit_other by discriminate.
    now rewrite <- !app_assoc.
  - cbn. exact Hprep.
  - cbn [trace emit device_send set_device]. unfold monitoring_started.
    rewrite !existsb_app. cbn. now rewrite !orb_false_r.
  - unfold connect, prepare, listen_on_receive, monitor. run.
    rewrite Hprep, Hlink. cbn [negb andb]. run.
    cbn [device set_device emit]. run.
    run_exec Htone. run_exec Htone. run_exec Hversion.
    unfold isConnected, device_isConnected in *.
    cbn [device linked emit set_device device_send].
    rewrite Hlink. cbn [andb]. run. reflexivity.
  - cbn [trace emit set_prepared monitoring_start].
    apply sent_emit_other. discriminate.
Qed.

Lemma connect_sends_three_commands_first_witness :
  exists s3 : State,
    sent (trace s3)
    = sent (trace fresh_engine)
      ++ [ ("A", [255; 85; 7; 0; 2; 34; 12; 2; 240; 0]);
           ("A", [255; 85; 7; 0; 2; 34; 72; 2; 240; 0]);
           ("A", [255; 85; 3; 9; 1; 0]) ]
    /\ prepared s3 = false
    /\ connect sample_handler (Some "A") fresh_engine
       = Return true (set_prepared true (monitoring_start s3)).
Proof.
  destruct (connect_sends_three_commands_first sample_handler
              (fun data : Params =>
                 [255; 85; 7; 0; 2; 34] ++ short_le (default 0 (data !! "frequency"))
                                        ++ short_le (default 0 (data !! "duration")))
              (fun _ : Params => [255; 85; 3; 9; 1; 0])
              "A" fresh_engine)
    as (s3 & _ & Hsent & Hprep & _ & Hconnect & _).
  - reflexivity.
  - reflexivity.
  - reflexivity.
  - vm_compute. reflexivity.
  - exists s3. split; [|split; assumption].
    rewrite Hsent. vm_compute. reflexivity.
Defined.

(** C7, as stated, fails: on a prepared engine that holds device "A" and a
    cached ultrasonic payload, [connect] with the linked device "B" returns
    true and changes nothing: the device is still "A" and the cache still
    holds the payload. *)
Lemma connect_prepared_keeps_device_and_cache :
  device_isConnected "B" running_engine = true
  /\ connect sample_handler (Some "B") running_engine = Return true running_engine
  /\ device running_engine = Some "A"
  /\ sensorDataCache_ running_engine !! 16 = Some [0; 0; 72; 67; 13; 10]
  /\ device (final (connect sample_handler (Some "B") running_engine)) <> Some "B"
  /\ sensorDataCache_ (final (connect sample_handler (Some "B") running_engine)) <> ∅.
Proof.
  assert (Hrun : connect sample_handler (Some "B") running_engine
                 = Return true running_engine) by (vm_compute; reflexivity).
  rewrite Hrun. cbn [final].
  repeat split; try (vm_compute; reflexivity); vm_compute; discriminate.
Qed.

(** C7 (amended): for a device whose link reports connected, [connect] on
    an unprepared engine replaces any previously attached device reference
    with the given device and leaves the sensor cache as it was; on a
    prepared engine it returns true and changes nothing, neither the device
    reference nor the cache; clearing the cache is what [reset] does. *)
Theorem connect_attaches_only_when_unprepared
    (handler : gmap string (Params -> Buffer)) (d : Device) (s : State) :
  device_isConnected d s = true ->
  (prepared s = false ->
     device (final (connect handler (Some d) s)) = Some d
     /\ sensorDataCache_ (final (connect handler (Some d) s)) = sensorDataCache_ s)
  /\ (prepared s = true -> connect handler (Some d) s = Return true s)
  /\ sensorDataCache_ (final (reset handler s)) = ∅.
Proof.
  intros Hlink. split; [|split].
  - intros Hprep. unfold connect. run. rewrite Hprep, Hlink. cbn [negb andb]. run.
    pose proof (prepare_preserves_attachment handler
                  (set_device (Some d)
                     (emit (Log "info" [LogText "Preparing bluetooth api for"; LogText d]) s)))
      as Hkeep.
    unfold attachment in Hkeep. cbn [device sensorDataCache_ set_device emit] in Hkeep.
    destruct (prepare handler _) as [[] s'|e s']; cbn [final mret M_ret] in *;
      injection Hkeep as Hdev Hcache; split; assumption.
  - intros Hprep. unfold connect. run. rewrite Hprep. cbn [negb andb]. run. reflexivity.
  - unfold reset. run.
    assert (Hexec : preserves sensorDataCache_ (exec handler "stop" None))
      by (apply exec_preserves; reflexivity).
    destruct (device (set_sensorDataCache_ ∅ s)) as [d0|]; [|reflexivity].
    run. specialize (Hexec (set_sensorDataCache_ ∅ s)).
    destruct (exec handler "stop" None _) as [[] s'|e s']; cbn [final] in *; run;
      cbn [final sensorDataCache_ device_reset emit]; exact Hexec.
Qed.

Lemma connect_attaches_only_when_unprepared_witness :
  device (final (connect sample_handler (Some "B") fresh_engine)) = Some "B"
  /\ sensorDataCache_ (final (connect sample_handler (Some "B") fresh_engine))
     = sensorDataCache_ fresh_engine.
Proof.
  destruct (connect_attaches_only_when_unprepared sample_handler "B" fresh_engine)
    as (Hfresh & _ & _).
  - vm_compute. reflexivity.
  - apply Hfresh. reflexivity.
Defined.




(** C9: for a command the handler table knows, [exec] on an engine with no
    device attached returns normally and leaves the whole state unchanged:
    the trace shows nothing sent, and the device reference, the prepared
    flag and the sensor cache are as before. *)
Theorem exec_without_device_is_noop
    (handler : gmap string (Params -> Buffer)) (command : string)
    (encode : Params -> Buffer) (data : option Params) (s : State) :
  handler !! command = Some encode ->
  device s = None ->
  exec handler command data s = Return tt s.
Proof.
  intros Hknown Hnone. rewrite exec_run, Hknown, send_run. now rewrite Hnone.
Qed.

Lemma exec_without_device_is_noop_witness :
  exec sample_handler "stop" None fresh_engine = Return tt fresh_engine.
Proof.
  apply (exec_without_device_is_noop sample_handler "stop"
           (fun _ : Params => [255; 85; 6; 0; 2; 5; 0; 0; 0; 0]) None fresh_engine).
  - reflexivity.
  - reflexivity.
Defined.

(** * Further properties of the codec *)

Lemma shl_double f : 0 <= f < 2 ^ 23 -> JS.shl f 1 = 2 * f.
Proof.
  intros Hf. unfold JS.shl. change (1 mod 32) with 1.
  rewrite (ToInt32_small f) by int32_lia.
  rewrite Z.shiftl_mul_pow2 by lia. change (2 ^ 1) with 2.
  rewrite ToInt32_small by int32_lia. lia.
Qed.

Lemma fraction_field_range w : 0 <= Codec.fraction_field w < 2 ^ 23.
Proof. unfold Codec.fraction_field. int32_lia. Qed.

Lemma exponent_field_range w : 0 <= Codec.exponent_field w < 2 ^ 8.
Proof. unfold Codec.exponent_field. int32_lia. Qed.

(** [intBitsToFloat_] in terms of the three fields of the pattern, for
    every pattern. *)
Lemma intBitsToFloat_pattern num :
  Codec.intBitsToFloat_ num =
    (inject_Z (if Codec.sign_field (num mod 2 ^ 32) then -1 else 1)
     * inject_Z (if Codec.exponent_field (num mod 2 ^ 32) =? 0
                 then 2 * Codec.fraction_field (num mod 2 ^ 32)
                 else Codec.fraction_field (num mod 2 ^ 32) + 2 ^ 23)
     * Codec.pow2 (Codec.exponent_field (num mod 2 ^ 32) - 150))%Q.
Proof.
  unfold Codec.intBitsToFloat_.
  rewrite sar_sign, band_exponent, band_fraction, sign_field_pattern.
  fold (Codec.exponent_field (num mod 2 ^ 32)).
  fold (Codec.fraction_field (num mod 2 ^ 32)).
  pose proof (fraction_field_range (num mod 2 ^ 32)) as Hf.
  rewrite bor_implicit_bit, shl_double by exact Hf.
  now destruct (num mod 2 ^ 32 <? 2 ^ 31).
Qed.

(** The fields of a pattern whose bit 31 is flipped. *)
Lemma flip_sign_fields num :
  Codec.exponent_field ((num + 2 ^ 31) mod 2 ^ 32) = Codec.exponent_field (num mod 2 ^ 32)
  /\ Codec.fraction_field ((num + 2 ^ 31) mod 2 ^ 32) = Codec.fraction_field (num mod 2 ^ 32)
  /\ Codec.sign_field ((num + 2 ^ 31) mod 2 ^ 32) = negb (Codec.sign_field (num mod 2 ^ 32)).
Proof.
  rewrite !sign_field_pattern. unfold Codec.exponent_field, Codec.fraction_field.
  repeat split.
  - int32_lia.
  - int32_lia.
  - destruct (Z.ltb_spec ((num + 2 ^ 31) mod 2 ^ 32) (2 ^ 31));
      destruct (Z.ltb_spec (num mod 2 ^ 32) (2 ^ 31)); cbn; try reflexivity; int32_lia.
Qed.

(** X1: on a subnormal pattern (exponent field 0, which includes both
    zeros) [intBitsToFloat_] returns the value the IEEE-754 binary32
    decoding gives the pattern. *)
Theorem intBitsToFloat_subnormal_ieee754 (num : Z) :
  Codec.exponent_field (num mod 2 ^ 32) = 0 ->
  exists q : Q,
    Codec.ieee754_binary32 (num mod 2 ^ 32) = Codec.B32_finite q
    /\ (Codec.intBitsToFloat_ num == q)%Q.
Proof.
  intros He. eexists. split.
  - unfold Codec.ieee754_binary32. rewrite He. reflexivity.
  - rewrite intBitsToFloat_pattern, He. cbn [Z.eqb].
    rewrite inject_Z_mult. unfold Codec.pow2.
    change (0 - 150) with (-126 + -24).
    rewrite Qpower_plus by discriminate.
    generalize (Qpower 2 (-126)). intros P.
    change (Qpower 2 (-24)) with (/ inject_Z (2 ^ 24))%Q.
    change (inject_Z (2 ^ 24)) with (inject_Z 2 * inject_Z (2 ^ 23))%Q.
    field; repeat split; discriminate.
Qed.

Lemma intBitsToFloat_subnormal_ieee754_witness :
  exists q : Q,
    Codec.ieee754_binary32 (2147483649 mod 2 ^ 32) = Codec.B32_finite q
    /\ (Codec.intBitsToFloat_ 2147483649 == q)%Q.
Proof. apply (intBitsToFloat_subnormal_ieee754 2147483649). reflexivity. Defined.

(** X2: flipping bit 31 of the pattern negates the decoded value. *)
Theorem intBitsToFloat_sign_bit (num : Z) :
  (Codec.intBitsToFloat_ (num + 2 ^ 31) == - Codec.intBitsToFloat_ num)%Q.
Proof.
  rewrite !intBitsToFloat_pattern.
  destruct (flip_sign_fields num) as (-> & -> & ->).
  generalize (Codec.pow2 (Codec.exponent_field (num mod 2 ^ 32) - 150)).
  generalize (inject_Z (if Codec.exponent_field (num mod 2 ^ 32) =? 0
                        then 2 * Codec.fraction_field (num mod 2 ^ 32)
                        else Codec.fraction_field (num mod 2 ^ 32) + 2 ^ 23)).
  intros m p.
  destruct (Codec.sign_field (num mod 2 ^ 32)); cbn [negb];
    change (inject_Z (-1)) with (- (1))%Q; change (inject_Z 1) with 1%Q; ring.
Qed.

(** On every pattern that IEEE-754 reads as a finite number the two
    decodings agree. *)
Lemma intBitsToFloat_finite_ieee754 num :
  Codec.exponent_field (num mod 2 ^ 32) <> 255 ->
  exists q : Q,
    Codec.ieee754_binary32 (num mod 2 ^ 32) = Codec.B32_finite q
    /\ (Codec.intBitsToFloat_ num == q)%Q.
Proof.
  intros He255. rewrite intBitsToFloat_pattern. unfold Codec.ieee754_binary32.
  destruct (Z.eqb_spec (Codec.exponent_field (num mod 2 ^ 32)) 255); [lia|].
  destruct (Z.eqb_spec (Codec.exponent_field (num mod 2 ^ 32)) 0) as [He0|He0].
  - eexists. split; [reflexivity|]. rewrite He0.
    rewrite inject_Z_mult. unfold Codec.pow2.
    change (0 - 150) with (-126 + -24).
    rewrite Qpower_plus by discriminate.
    generalize (Qpower 2 (-126)). intros P.
    change (Qpower 2 (-24)) with (/ inject_Z (2 ^ 24))%Q.
    change (inject_Z (2 ^ 24)) with (inject_Z 2 * inject_Z (2 ^ 23))%Q.
    field; repeat split; discriminate.
  - eexists. split; [reflexivity|]. unfold Codec.pow2.
    replace (Codec.exponent_field (num mod 2 ^ 32) - 150)
      with ((Codec.exponent_field (num mod 2 ^ 32) - 127) + (-23)) by lia.
    rewrite Qpower_plus by discriminate.
    generalize (Qpower 2 (Codec.exponent_field (num mod 2 ^ 32) - 127)).
    intros P. rewrite inject_Z_plus.
    change (Qpower 2 (-23)) with (/ inject_Z (2 ^ 23))%Q.
    field. discriminate.
Qed.

Lemma fourBytesToInt_word b1 b2 b3 b4 :
  0 <= b1 <= 255 -> 0 <= b2 <= 255 -> 0 <= b3 <= 255 -> 0 <= b4 <= 255 ->
  Codec.fourBytesToInt_ b1 b2 b3 b4 mod 2 ^ 32
  = b1 * 2 ^ 24 + b2 * 2 ^ 16 + b3 * 2 ^ 8 + b4.
Proof.
  intros H1 H2 H3 H4. unfold Codec.fourBytesToInt_.
  rewrite !shl_byte by lia.
  rewrite (ToInt32_small (b2 * 2 ^ 16)) by int32_lia.
  rewrite (ToInt32_small (b3 * 2 ^ 8)) by int32_lia.
  unfold JS.ToInt32. int32_lia.
Qed.

(** X3: on a pattern with exponent field 255, which IEEE-754 reads as an
    infinity or a NaN, [intBitsToFloat_] returns the finite number
    sign x (fraction + 2^23) x 2^105, of magnitude at least 2^128. *)
Theorem intBitsToFloat_exponent_255_finite (num : Z) :
  Codec.exponent_field (num mod 2 ^ 32) = 255 ->
  (Codec.intBitsToFloat_ num ==
     inject_Z (if Codec.sign_field (num mod 2 ^ 32) then -1 else 1)
     * inject_Z (Codec.fraction_field (num mod 2 ^ 32) + 2 ^ 23)
     * inject_Z (2 ^ 105))%Q
  /\ (inject_Z (2 ^ 128) <= Qabs (Codec.intBitsToFloat_ num))%Q
  /\ (forall q : Q, Codec.ieee754_binary32 (num mod 2 ^ 32) <> Codec.B32_finite q).
Proof.
  intros He.
  assert (Hv : (Codec.intBitsToFloat_ num ==
                inject_Z (if Codec.sign_field (num mod 2 ^ 32) then -1 else 1)
                * inject_Z (Codec.fraction_field (num mod 2 ^ 32) + 2 ^ 23)
                * inject_Z (2 ^ 105))%Q).
  { rewrite intBitsToFloat_pattern, He. reflexivity. }
  split; [exact Hv|]. split.
  - rewrite Hv, !Qabs_Qmult.
    pose proof (fraction_field_range (num mod 2 ^ 32)) as Hf.
    assert (Hs : (Qabs (inject_Z (if Codec.sign_field (num mod 2 ^ 32) then -1 else 1))
                  == 1)%Q) by (destruct (Codec.sign_field _); reflexivity).
    rewrite Hs, Qmult_1_l.
    rewrite (Qabs_pos (inject_Z (2 ^ 105))) by discriminate.
    rewrite (Qabs_pos (inject_Z (Codec.fraction_field (num mod 2 ^ 32) + 2 ^ 23)))
      by (change 0%Q with (inject_Z 0); rewrite <- Zle_Qle; lia).
    rewrite <- inject_Z_mult, <- Zle_Qle.
    change (2 ^ 128) with (2 ^ 23 * 2 ^ 105).
    apply Z.mul_le_mono_nonneg_r; lia.
  - intros q. unfold Codec.ieee754_binary32. rewrite He.
    change (255 =? 255) with true. cbv iota.
    destruct (Codec.fraction_field (num mod 2 ^ 32) =? 0); discriminate.
Qed.

Lemma intBitsToFloat_exponent_255_finite_witness :
  (inject_Z (2 ^ 128) <= Qabs (Codec.intBitsToFloat_ 2139095040))%Q.
Proof. apply (intBitsToFloat_exponent_255_finite 2139095040). reflexivity. Defined.



Lemma padded_byte (data : Buffer) (i : nat) :
  (i < 4)%nat ->
  default 0 (take 4 (data ++ [0; 0; 0; 0]) !! i) = default 0 (data !! i)
  /\ default 0 (take 4 data !! i) = default 0 (data !! i).
Proof.
  intros Hi. rewrite !lookup_take_lt by exact Hi. split; [|reflexivity].
  destruct (decide (i < length data)%nat) as [Hlt|Hge].
  - now rewrite lookup_app_l.
  - rewrite lookup_app_r by lia. rewrite (lookup_ge_None_2 data i) by lia.
    destruct (i - length data)%nat as [|[|[|[|k]]]]; reflexivity.
Qed.

(** X5: [parseFloatBytes_] reads the first four bytes of the payload only,
    and reads a missing byte as 0: bytes after the fourth, such as a
    trailing frame footer, do not matter. *)
Theorem parseFloatBytes_first_four_bytes (data : Buffer) :
  Codec.parseFloatBytes_ data = Codec.parseFloatBytes_ (take 4 data)
  /\ Codec.parseFloatBytes_ data
     = Codec.parseFloatBytes_ (take 4 (data ++ [0; 0; 0; 0])).
Proof.
  unfold Codec.parseFloatBytes_.
  destruct (padded_byte data 0) as [H0 H0']; [lia|].
  destruct (padded_byte data 1) as [H1 H1']; [lia|].
  destruct (padded_byte data 2) as [H2 H2']; [lia|].
  destruct (padded_byte data 3) as [H3 H3']; [lia|].
  now rewrite H0, H1, H2, H3, H0', H1', H2', H3'.
Qed.

(** X6: for a payload that starts with four bytes b0..b3 in 0..255 whose
    big-endian word b3 b2 b1 b0 is a finite IEEE-754 pattern,
    [parseFloatBytes_] returns [toFixed2] of the IEEE-754 value of that
    word: the payload is decoded as a little-endian binary32. *)
Theorem parseFloatBytes_little_endian_ieee754 (b0 b1 b2 b3 : Z) (rest : Buffer) :
  0 <= b0 <= 255 -> 0 <= b1 <= 255 -> 0 <= b2 <= 255 -> 0 <= b3 <= 255 ->
  Codec.exponent_field (b3 * 2 ^ 24 + b2 * 2 ^ 16 + b1 * 2 ^ 8 + b0) <> 255 ->
  exists q : Q,
    Codec.ieee754_binary32 (b3 * 2 ^ 24 + b2 * 2 ^ 16 + b1 * 2 ^ 8 + b0)
      = Codec.B32_finite q
    /\ (Codec.intBitsToFloat_ (Codec.fourBytesToInt_ b3 b2 b1 b0) == q)%Q
    /\ Codec.parseFloatBytes_ (b0 :: b1 :: b2 :: b3 :: rest)
       = Codec.toFixed2 (Codec.intBitsToFloat_ (Codec.fourBytesToInt_ b3 b2 b1 b0)).
Proof.
  intros H0 H1 H2 H3 He.
  pose proof (fourBytesToInt_word b3 b2 b1 b0 H3 H2 H1 H0) as Hw.
  destruct (intBitsToFloat_finite_ieee754 (Codec.fourBytesToInt_ b3 b2 b1 b0))
    as (q & Hq & Hv).
  { now rewrite Hw. }
  rewrite Hw in Hq. exists q. repeat split; [exact Hq | exact Hv].
Qed.

Lemma parseFloatBytes_little_endian_ieee754_witness :
  exists q : Q,
    Codec.ieee754_binary32 (67 * 2 ^ 24 + 72 * 2 ^ 16 + 0 * 2 ^ 8 + 0)
      = Codec.B32_finite q
    /\ (Codec.intBitsToFloat_ (Codec.fourBytesToInt_ 67 72 0 0) == q)%Q
    /\ Codec.parseFloatBytes_ [0; 0; 72; 67; 13; 10]
       = Codec.toFixed2 (Codec.intBitsToFloat_ (Codec.fourBytesToInt_ 67 72 0 0)).
Proof.
  apply (parseFloatBytes_little_endian_ieee754 0 0 72 67 [13; 10]); try lia.
  vm_compute. discriminate.
Defined.

(** * Further properties of the response dispatcher *)

Lemma dispatched_emit_dispatch (t : list Effect) (ev : Event) :
  dispatched (t ++ [Dispatch ev]) = dispatched t ++ [ev].
Proof. unfold dispatched. now rewrite omap_app. Qed.

Lemma handleSensorData_twice (ct : CallbackTypeEnum) (idx : Z)
    (data : Buffer) (size : option Z) (s : State) :
  handleSensorData_ ct idx data size (handleSensorData_ ct idx data size s)
  = handleSensorData_ ct idx data size s.
Proof.
  destruct (too_short data size) eqn:Hs.
  { now rewrite !(handleSensorData_dropped ct idx data size s Hs). }
  destruct (is_cached idx data s) eqn:Hc.
  { now rewrite !(handleSensorData_suppressed ct idx data size s Hc). }
  apply handleSensorData_suppressed, is_cached_spec.
  destruct (handleSensorData_accepted ct idx data size s Hs Hc) as [-> _].
  apply lookup_insert_eq.
Qed.

(** X7: delivering a payload twice in a row leaves the engine where the
    first delivery left it, whatever the index type, payload and minimum
    size; the same holds for a whole frame that [handleData_] passes on as
    sensor data, that is, one whose index byte is a sensor index type other
    than VERSION. *)
Theorem handleSensorData_idempotent (ct : CallbackTypeEnum) (idx : Z)
    (data : Buffer) (size : option Z) (s : State) :
  handleSensorData_ ct idx data size (handleSensorData_ ct idx data size s)
  = handleSensorData_ ct idx data size s
  /\ (forall dataBuffer : Buffer,
        dataBuffer !! 2%nat = Some idx ->
        sensor_index ct idx -> idx <> VERSION ct ->
        handleData_ ct dataBuffer (handleData_ ct dataBuffer s)
        = handleData_ ct dataBuffer s).
Proof.
  split; [apply handleSensorData_twice|].
  intros dataBuffer Hi Hidx Hv. unfold handleData_. rewrite Hi. cbn [is_case default from_option id].
  destruct (Z.eqb_spec idx (VERSION ct)); [contradiction|].
  destruct ((idx =? ULTRASONIC ct) || (idx =? LINEFOLLOWER ct) || (idx =? LIGHTSENSOR ct))
    eqn:Hsized; [apply handleSensorData_twice|].
  apply orb_false_elim in Hsized as [Hsized Hl].
  apply orb_false_elim in Hsized as [Hu Hf].
  destruct (Z.eqb_spec idx (INNER_BUTTON ct)) as [_|Hb]; [apply handleSensorData_twice|].
  apply Z.eqb_neq in Hu, Hf, Hl. unfold sensor_index in Hidx. intuition congruence.
Qed.

Lemma handleSensorData_idempotent_witness :
  handleData_ sample_CallbackType ultrasonic_frame
    (handleData_ sample_CallbackType ultrasonic_frame fresh_engine)
  = handleData_ sample_CallbackType ultrasonic_frame fresh_engine.
Proof.
  destruct (handleSensorData_idempotent sample_CallbackType 16 [] None fresh_engine)
    as [_ Hframe].
  apply Hframe.
  - reflexivity.
  - right. right. right. reflexivity.
  - discriminate.
Defined.

(** X8: after a payload that meets the minimum size has been delivered,
    the cache entry of its index type is that payload; the entries of the
    other index types are never touched. *)
Theorem handleSensorData_cache_entry (ct : CallbackTypeEnum) (idx : Z)
    (data : Buffer) (size : option Z) (s : State) :
  (too_short data size = false ->
     sensorDataCache_ (handleSensorData_ ct idx data size s) !! idx = Some data)
  /\ (forall other : Z, other <> idx ->
        sensorDataCache_ (handleSensorData_ ct idx data size s) !! other
        = sensorDataCache_ s !! other).
Proof.
  destruct (too_short data size) eqn:Hs.
  { rewrite handleSensorData_dropped by exact Hs. split; [discriminate|reflexivity]. }
  destruct (is_cached idx data s) eqn:Hc.
  { rewrite handleSensorData_suppressed by exact Hc.
    split; [intros _; now apply is_cached_spec | reflexivity]. }
  destruct (handleSensorData_accepted ct idx data size s Hs Hc) as [-> _].
  split; [intros _; apply lookup_insert_eq|].
  intros other Hne. now apply lookup_insert_ne.
Qed.

Lemma handleSensorData_cache_entry_witness :
  sensorDataCache_ (handleSensorData_ sample_CallbackType 17 [0; 0; 70; 50] (Some 4)
                      running_engine) !! 17 = Some [0; 0; 70; 50]
  /\ sensorDataCache_ (handleSensorData_ sample_CallbackType 17 [0; 0; 70; 50] (Some 4)
                         running_engine) !! 16
     = sensorDataCache_ running_engine !! 16.
Proof.
  destruct (handleSensorData_cache_entry sample_CallbackType 17 [0; 0; 70; 50]
              (Some 4) running_engine) as [Hsame Hother].
  split; [apply Hsame; reflexivity | apply Hother; discriminate].
Defined.

(** X9: the cache holds the latest payload only: for a sensor index type,
    payloads a, b, a with a different from b, all meeting the minimum size
    and a not the cached value, dispatch three events. *)
Theorem handleSensorData_alternating (ct : CallbackTypeEnum) (idx : Z)
    (a b : Buffer) (size : option Z) (s : State) :
  sensor_index ct idx ->
  too_short a size = false -> too_short b size = false ->
  a <> b ->
  sensorDataCache_ s !! idx <> Some a ->
  exists e1 e2 e3 : Event,
    dispatched (trace (handleSensorData_ ct idx a size
                         (handleSensorData_ ct idx b size
                            (handleSensorData_ ct idx a size s))))
    = dispatched (trace s) ++ [e1; e2; e3].
Proof.
  intros Hidx Ha Hb Hab Hc. apply is_cached_false in Hc.
  destruct (handleSensorData_accepted_sensor ct idx a size s Ha Hc Hidx) as [e1 H1].
  destruct (handleSensorData_accepted ct idx a size s Ha Hc) as [Hc1 _].
  set (s1 := handleSensorData_ ct idx a size s) in *.
  assert (Hcb : is_cached idx b s1 = false).
  { apply is_cached_false. rewrite Hc1, lookup_insert_eq. congruence. }
  destruct (handleSensorData_accepted_sensor ct idx b size s1 Hb Hcb Hidx) as [e2 H2].
  destruct (handleSensorData_accepted ct idx b size s1 Hb Hcb) as [Hc2 _].
  set (s2 := handleSensorData_ ct idx b size s1) in *.
  assert (Hca : is_cached idx a s2 = false).
  { apply is_cached_false. rewrite Hc2, lookup_insert_eq. congruence. }
  destruct (handleSensorData_accepted_sensor ct idx a size s2 Ha Hca Hidx) as [e3 H3].
  exists e1, e2, e3. rewrite H3, H2, H1, !dispatched_emit_dispatch.
  now rewrite <- !app_assoc.
Qed.

Lemma handleSensorData_alternating_witness :
  exists e1 e2 e3 : Event,
    dispatched (trace (handleSensorData_ sample_CallbackType 128 [1] None
                         (handleSensorData_ sample_CallbackType 128 [0] None
                            (handleSensorData_ sample_CallbackType 128 [1] None
                               fresh_engine))))
    = dispatched (trace fresh_engine) ++ [e1; e2; e3].
Proof.
  apply (handleSensorData_alternating sample_CallbackType 128 [1] [0] None fresh_engine).
  - left. reflexivity.
  - reflexivity.
  - reflexivity.
  - discriminate.
  - vm_compute. discriminate.
Defined.

Lemma distinct_index_types_ne (ct : CallbackTypeEnum) :
  distinct_index_types ct ->
  VERSION ct <> ULTRASONIC ct /\ VERSION ct <> LINEFOLLOWER ct
  /\ VERSION ct <> LIGHTSENSOR ct /\ VERSION ct <> INNER_BUTTON ct
  /\ ULTRASONIC ct <> LINEFOLLOWER ct /\ ULTRASONIC ct <> LIGHTSENSOR ct
  /\ ULTRASONIC ct <> INNER_BUTTON ct /\ LINEFOLLOWER ct <> LIGHTSENSOR ct
  /\ LINEFOLLOWER ct <> INNER_BUTTON ct /\ LIGHTSENSOR ct <> INNER_BUTTON ct.
Proof.
  unfold distinct_index_types. intros Hd.
  apply NoDup_cons in Hd as [H1 Hd]. apply NoDup_cons in Hd as [H2 Hd].
  apply NoDup_cons in Hd as [H3 Hd]. apply NoDup_cons in Hd as [H4 _].
  repeat split; intros Heq; rewrite ?Heq in *; set_solver.
Qed.

(** X10: with pairwise different enum values, [handleData_] turns an
    ultrasonic frame whose payload has at least 4 bytes and is not the
    cached value into one UltrasonicSensorValue event carrying
    [parseFloatBytes_] of the payload, and a light-sensor frame into one
    LightnessSensorValue event likewise; the payload becomes the cached
    value. *)
Theorem handleData_float_sensors (ct : CallbackTypeEnum) (dataBuffer : Buffer)
    (s : State) :
  distinct_index_types ct ->
  (4 <= length (drop 4 dataBuffer))%nat ->
  (dataBuffer !! 2%nat = Some (ULTRASONIC ct) ->
   sensorDataCache_ s !! ULTRASONIC ct <> Some (drop 4 dataBuffer) ->
   handleData_ ct dataBuffer s
   = emit (Dispatch (UltrasonicSensorValue (Codec.parseFloatBytes_ (drop 4 dataBuffer))))
       (set_sensorDataCache_
          (<[ULTRASONIC ct := drop 4 dataBuffer]> (sensorDataCache_ s)) s))
  /\ (dataBuffer !! 2%nat = Some (LIGHTSENSOR ct) ->
      sensorDataCache_ s !! LIGHTSENSOR ct <> Some (drop 4 dataBuffer) ->
      handleData_ ct dataBuffer s
      = emit (Dispatch (LightnessSensorValue (Codec.parseFloatBytes_ (drop 4 dataBuffer))))
          (set_sensorDataCache_
             (<[LIGHTSENSOR ct := drop 4 dataBuffer]> (sensorDataCache_ s)) s)).
Proof.
  intros Hd Hlen.
  destruct (distinct_index_types_ne ct Hd)
    as (Hvu & Hvf & Hvl & Hvb & Huf & Hul & Hub & Hfl & Hfb & Hlb).
  split; intros Hi Hc; apply is_cached_false in Hc;
    unfold handleData_, handleSensorData_; rewrite Hi; cbn [is_case default from_option id];
    rewrite (long_enough_4 _ Hlen), Hc.
  - destruct (Z.eqb_spec (ULTRASONIC ct) (VERSION ct)); [congruence|].
    rewrite Z.eqb_refl. cbn [orb].
    destruct (Z.eqb_spec (ULTRASONIC ct) (INNER_BUTTON ct)); [congruence|].
    destruct (Z.eqb_spec (ULTRASONIC ct) (LIGHTSENSOR ct)); [congruence|].
    destruct (Z.eqb_spec (ULTRASONIC ct) (LINEFOLLOWER ct)); [congruence|].
    reflexivity.
  - destruct (Z.eqb_spec (LIGHTSENSOR ct) (VERSION ct)); [congruence|].
    rewrite Z.eqb_refl, !orb_true_r.
    destruct (Z.eqb_spec (LIGHTSENSOR ct) (INNER_BUTTON ct)); [congruence|].
    reflexivity.
Qed.

Lemma handleData_float_sensors_witness :
  handleData_ sample_CallbackType [255; 85; 18; 2; 195; 245; 72; 64; 13; 10] fresh_engine
  = emit (Dispatch (LightnessSensorValue
                      (Codec.parseFloatBytes_ [195; 245; 72; 64; 13; 10])))
      (set_sensorDataCache_
         (<[18 := [195; 245; 72; 64; 13; 10]]> (sensorDataCache_ fresh_engine))
         fresh_engine).
Proof.
  destruct (handleData_float_sensors sample_CallbackType
              [255; 85; 18; 2; 195; 245; 72; 64; 13; 10] fresh_engine) as [_ Hlight].
  - apply (bool_decide_unpack _). vm_compute. reflexivity.
  - cbn. lia.
  - apply Hlight; [reflexivity | vm_compute; discriminate].
Defined.

(** X11: with pairwise different enum values, [handleData_] turns a button
    frame whose payload is not the cached value into one ButtonPressed event
    carrying the first payload byte, which is byte 4 of the frame; there is
    no minimum size, so a frame without a payload byte dispatches
    ButtonPressed with [undefined]. *)
Theorem handleData_button (ct : CallbackTypeEnum) (dataBuffer : Buffer) (s : State) :
  distinct_index_types ct ->
  dataBuffer !! 2%nat = Some (INNER_BUTTON ct) ->
  sensorDataCache_ s !! INNER_BUTTON ct <> Some (drop 4 dataBuffer) ->
  handleData_ ct dataBuffer s
  = emit (Dispatch (ButtonPressed (dataBuffer !! 4%nat)))
      (set_sensorDataCache_
         (<[INNER_BUTTON ct := drop 4 dataBuffer]> (sensorDataCache_ s)) s).
Proof.
  intros Hd Hi Hc. apply is_cached_false in Hc.
  destruct (distinct_index_types_ne ct Hd)
    as (Hvu & Hvf & Hvl & Hvb & Huf & Hul & Hub & Hfl & Hfb & Hlb).
  unfold handleData_, handleSensorData_. rewrite Hi. cbn [is_case default from_option id too_short].
  rewrite Hc.
  destruct (Z.eqb_spec (INNER_BUTTON ct) (VERSION ct)); [congruence|].
  destruct (Z.eqb_spec (INNER_BUTTON ct) (ULTRASONIC ct)); [congruence|].
  destruct (Z.eqb_spec (INNER_BUTTON ct) (LINEFOLLOWER ct)); [congruence|].
  destruct (Z.eqb_spec (INNER_BUTTON ct) (LIGHTSENSOR ct)); [congruence|].
  cbn [orb]. rewrite Z.eqb_refl. unfold dispatchSensorEvent_.
  rewrite lookup_drop. reflexivity.
Qed.

Lemma handleData_button_witness :
  handleData_ sample_CallbackType [255; 85; 128; 1] fresh_engine
  = emit (Dispatch (ButtonPressed None))
      (set_sensorDataCache_ (<[128 := []]> (sensorDataCache_ fresh_engine)) fresh_engine)
  /\ handleData_ sample_CallbackType [255; 85; 128; 1; 1; 13; 10] fresh_engine
     = emit (Dispatch (ButtonPressed (Some 1)))
         (set_sensorDataCache_ (<[128 := [1; 13; 10]]> (sensorDataCache_ fresh_engine))
            fresh_engine).
Proof.
  split.
  - apply (handleData_button sample_CallbackType [255; 85; 128; 1] fresh_engine).
    + apply (bool_decide_unpack _). vm_compute. reflexivity.
    + reflexivity.
    + vm_compute. discriminate.
  - apply (handleData_button sample_CallbackType [255; 85; 128; 1; 1; 13; 10] fresh_engine).
    + apply (bool_decide_unpack _). vm_compute. reflexivity.
    + reflexivity.
    + vm_compute. discriminate.
Defined.

(** X12: a version frame, and a frame whose index byte is missing or is
    none of the five enum values, only adds one log entry: no event is
    dispatched and the cache is not touched. *)
Theorem handleData_version_and_unknown (ct : CallbackTypeEnum) (dataBuffer : Buffer)
    (s : State) :
  (dataBuffer !! 2%nat = Some (VERSION ct) ->
   handleData_ ct dataBuffer s
   = emit (Log "info" [LogText "mBot Firmware"; LogBytes (drop 4 dataBuffer)]) s)
  /\ ((forall v : Z, dataBuffer !! 2%nat = Some v ->
         v <> VERSION ct /\ v <> ULTRASONIC ct /\ v <> LINEFOLLOWER ct
         /\ v <> LIGHTSENSOR ct /\ v <> INNER_BUTTON ct) ->
      handleData_ ct dataBuffer s
      = emit (Log "info" [LogText "UNKNOWN index"; LogValue (dataBuffer !! 1%nat);
                          LogValue (dataBuffer !! 2%nat); LogValue (dataBuffer !! 3%nat);
                          LogBytes dataBuffer]) s).
Proof.
  split.
  - intros Hi. unfold handleData_. rewrite Hi. cbn [is_case]. now rewrite Z.eqb_refl.
  - intros Hunknown. unfold handleData_.
    destruct (dataBuffer !! 2%nat) as [v|]; [|reflexivity].
    destruct (Hunknown v eq_refl) as (Hv & Hu & Hf & Hl & Hb). cbn [is_case].
    destruct (Z.eqb_spec v (VERSION ct)); [congruence|].
    destruct (Z.eqb_spec v (ULTRASONIC ct)); [congruence|].
    destruct (Z.eqb_spec v (LINEFOLLOWER ct)); [congruence|].
    destruct (Z.eqb_spec v (LIGHTSENSOR ct)); [congruence|].
    destruct (Z.eqb_spec v (INNER_BUTTON ct)); [congruence|].
    reflexivity.
Qed.

Lemma handleData_version_and_unknown_witness :
  handleData_ sample_CallbackType [255; 85; 9; 4; 48; 54; 13; 10] running_engine
  = emit (Log "info" [LogText "mBot Firmware"; LogBytes [48; 54; 13; 10]]) running_engine
  /\ handleData_ sample_CallbackType [255; 85; 77; 4; 48; 13; 10] running_engine
     = emit (Log "info" [LogText "UNKNOWN index"; LogValue (Some 85); LogValue (Some 77);
                         LogValue (Some 4); LogBytes [255; 85; 77; 4; 48; 13; 10]])
         running_engine.
Proof.
  split.
  - apply (handleData_version_and_unknown sample_CallbackType
             [255; 85; 9; 4; 48; 54; 13; 10] running_engine). reflexivity.
  - apply (handleData_version_and_unknown sample_CallbackType
             [255; 85; 77; 4; 48; 13; 10] running_engine).
    intros v Hv. injection Hv as <-. cbn. repeat split; discriminate.
Defined.

(** ** The receive path as a whole *)

Lemma passive_refl s : passive s s.
Proof. unfold passive. repeat split; reflexivity. Qed.

Lemma passive_trans s1 s2 s3 : passive s1 s2 -> passive s2 s3 -> passive s1 s3.
Proof.
  unfold passive. intros (?&?&?&?&?&?) (?&?&?&?&?&?).
  repeat split; try congruence. etrans; eassumption.
Qed.

Lemma passive_emit (e : Effect) (s : State) :
  (forall d b, e <> DeviceSend d b) -> passive s (emit e s).
Proof.
  intros He. unfold passive. cbn. repeat split; try reflexivity.
  - now apply sent_emit_other.
  - now apply prefix_app_r.
Qed.

Lemma passive_cache (c : gmap Z Buffer) (s : State) :
  passive s (set_sensorDataCache_ c s).
Proof. unfold passive. cbn. repeat split; reflexivity. Qed.

Lemma handleSensorData_passive ct idx (data : Buffer) size s :
  passive s (handleSensorData_ ct idx data size s).
Proof.
  unfold handleSensorData_, dispatchSensorEvent_.
  repeat (match goal with |- context [if ?b then _ else _] => destruct b end);
    try apply passive_refl; try apply passive_cache;
    (eapply passive_trans; [apply passive_cache | apply passive_emit; discriminate]).
Qed.

Lemma handleData_passive ct (dataBuffer : Buffer) s :
  passive s (handleData_ ct dataBuffer s).
Proof.
  unfold handleData_.
  repeat (match goal with |- context [if ?b then _ else _] => destruct b end);
    try apply handleSensorData_passive; apply passive_emit; discriminate.
Qed.

Lemma handleOnReceive_loop_passive ct (frames : list Buffer) s :
  passive s (handleOnReceive_loop ct frames s).
Proof.
  revert s. induction frames as [|f frames IH]; intros s; [apply passive_refl|].
  cbn [handleOnReceive_loop]. eapply passive_trans; [|apply IH].
  destruct (4 <? length f)%nat; [apply handleData_passive | apply passive_refl].
Qed.

Lemma handleOnReceive_connection (ct : CallbackTypeEnum)
    (reader : Buffer -> Buffer -> option (list Buffer) * Buffer)
    (chunk : Buffer) (s : State) :
  device (handleOnReceive_ ct reader chunk s) = device s
  /\ prepared (handleOnReceive_ ct reader chunk s) = prepared s.
Proof.
  unfold handleOnReceive_.
  destruct (reader (streamReader_ s) chunk) as [[frames|] kept]; [|now cbn].
  destruct (handleOnReceive_loop_passive ct frames (set_streamReader_ kept s))
    as (Hd & Hp & _).
  split; [exact Hd | exact Hp].
Qed.

(** X13: the receive path is passive: whatever bytes come in,
    [handleOnReceive_] hands no buffer to any device, leaves the attached
    device, the prepared flag and the links alone, only adds to the trace,
    and keeps as buffered bytes exactly what the stream reader kept. *)
Theorem handleOnReceive_passive (ct : CallbackTypeEnum)
    (reader : Buffer -> Buffer -> option (list Buffer) * Buffer)
    (chunk : Buffer) (s : State) :
  device (handleOnReceive_ ct reader chunk s) = device s
  /\ prepared (handleOnReceive_ ct reader chunk s) = prepared s
  /\ linked (handleOnReceive_ ct reader chunk s) = linked s
  /\ sent (trace (handleOnReceive_ ct reader chunk s)) = sent (trace s)
  /\ trace s `prefix_of` trace (handleOnReceive_ ct reader chunk s)
  /\ streamReader_ (handleOnReceive_ ct reader chunk s)
     = (reader (streamReader_ s) chunk).2.
Proof.
  unfold handleOnReceive_.
  destruct (reader (streamReader_ s) chunk) as [[frames|] kept]; cbn [snd].
  - destruct (handleOnReceive_loop_passive ct frames (set_streamReader_ kept s))
      as (Hd & Hp & Hl & Hr & Hs & Ht).
    cbn in Hd, Hp, Hl, Hr, Hs, Ht. repeat split; assumption.
  - cbn. repeat split; reflexivity.
Qed.

Lemma dispatched_emit_other (t : list Effect) (e : Effect) :
  (forall ev, e <> Dispatch ev) -> dispatched (t ++ [e]) = dispatched t.
Proof.
  intros He. unfold dispatched. rewrite omap_app. cbn.
  destruct e; rewrite ?app_nil_r; try reflexivity.
  now destruct (He e).
Qed.

(** One call of [handleData_] dispatches at most one event. *)
Lemma handleData_one_event ct (dataBuffer : Buffer) s :
  (length (dispatched (trace (handleData_ ct dataBuffer s)))
   <= S (length (dispatched (trace s))))%nat.
Proof.
  assert (Hsensor : forall idx data size,
             (length (dispatched (trace (handleSensorData_ ct idx data size s)))
              <= S (length (dispatched (trace s))))%nat).
  { intros idx data size.
    destruct (too_short data size) eqn:Hs;
      [rewrite handleSensorData_dropped by exact Hs; lia|].
    destruct (is_cached idx data s) eqn:Hc;
      [rewrite handleSensorData_suppressed by exact Hc; lia|].
    destruct (handleSensorData_accepted ct idx data size s Hs Hc) as [_ [->|[ev ->]]];
      [lia|].
    rewrite dispatched_emit_dispatch, length_app. cbn. lia. }
  unfold handleData_.
  repeat (match goal with |- context [if ?b then _ else _] => destruct b end);
    try apply Hsensor; cbn [trace emit];
    rewrite dispatched_emit_other by discriminate; lia.
Qed.

(** X14: [handleOnReceive_] dispatches at most one event for each frame of
    more than 4 bytes the stream reader hands over, and none when the
    reader hands over no frames. *)
Theorem handleOnReceive_event_count (ct : CallbackTypeEnum)
    (reader : Buffer -> Buffer -> option (list Buffer) * Buffer)
    (chunk : Buffer) (s : State) :
  (forall (frames : list Buffer) (kept : Buffer),
      reader (streamReader_ s) chunk = (Some frames, kept) ->
      (length (dispatched (trace (handleOnReceive_ ct reader chunk s)))
       <= length (dispatched (trace s))
          + length (filter (fun f : Buffer => (4 < length f)%nat) frames))%nat)
  /\ (forall kept : Buffer,
        reader (streamReader_ s) chunk = (None, kept) ->
        dispatched (trace (handleOnReceive_ ct reader chunk s)) = dispatched (trace s)).
Proof.
  split.
  - intros frames kept Hread. unfold handleOnReceive_. rewrite Hread.
    change (trace s) with (trace (set_streamReader_ kept s)).
    generalize (set_streamReader_ kept s). clear Hread.
    induction frames as [|f frames IH]; intros s0; [cbn; lia|].
    cbn [handleOnReceive_loop]. rewrite filter_cons.
    destruct (Nat.ltb_spec 4 (length f)) as [Hlong|Hshort].
    + rewrite decide_True by exact Hlong. cbn [length].
      pose proof (handleData_one_event ct f s0).
      specialize (IH (handleData_ ct f s0)). lia.
    + rewrite decide_False by lia. apply IH.
  - intros kept Hread. unfold handleOnReceive_. now rewrite Hread.
Qed.

Lemma handleOnReceive_event_count_witness :
  (length (dispatched (trace
     (handleOnReceive_ sample_CallbackType sample_reader ultrasonic_frame fresh_engine)))
   <= length (dispatched (trace fresh_engine))
      + length (filter (fun f : Buffer => (4 < length f)%nat) [ultrasonic_frame]))%nat.
Proof.
  apply (handleOnReceive_event_count sample_CallbackType sample_reader
           ultrasonic_frame fresh_engine) with (kept := []).
  reflexivity.
Defined.

Lemma handleSensorData_cache_ok ct idx (data : Buffer) size s :
  cache_ok ct s ->
  (too_short data size = false ->
     sensor_index ct idx /\ (1 <= length data)%nat
     /\ (sized_index ct idx -> (4 <= length data)%nat)) ->
  cache_ok ct (handleSensorData_ ct idx data size s).
Proof.
  intros Hok Hnew.
  destruct (too_short data size) eqn:Hs;
    [now rewrite handleSensorData_dropped|].
  destruct (is_cached idx data s) eqn:Hc;
    [now rewrite handleSensorData_suppressed|].
  destruct (handleSensorData_accepted ct idx data size s Hs Hc) as [Hcache _].
  intros j d. rewrite Hcache. rewrite lookup_insert.
  destruct (decide (idx = j)) as [<-|Hne].
  - intros [= <-]. now apply Hnew.
  - apply Hok.
Qed.

Lemma cache_ok_emit ct e s : cache_ok ct s -> cache_ok ct (emit e s).
Proof. intros H. exact H. Qed.

Lemma is_case_true (v : JS.element) (c : Z) : is_case v c = true -> v = Some c.
Proof.
  destruct v as [x|]; [|discriminate]. cbn. intros H.
  apply Z.eqb_eq in H. now subst.
Qed.

Lemma is_case_false_ne (v : JS.element) (c : Z) :
  is_case v c = false -> default 0 v = c -> v = None.
Proof.
  destruct v as [x|]; [|reflexivity]. cbn. intros H Hx.
  apply Z.eqb_neq in H. contradiction.
Qed.

Lemma handleData_cache_ok ct (dataBuffer : Buffer) s :
  (4 < length dataBuffer)%nat ->
  cache_ok ct s -> cache_ok ct (handleData_ ct dataBuffer s).
Proof.
  intros Hlen Hok. unfold handleData_.
  assert (Hpayload : (1 <= length (drop 4 dataBuffer))%nat)
    by (rewrite length_drop; lia).
  destruct (is_case (dataBuffer !! 2%nat) (VERSION ct)); [exact Hok|].
  destruct (is_case (dataBuffer !! 2%nat) (ULTRASONIC ct)) eqn:Hu;
    [|destruct (is_case (dataBuffer !! 2%nat) (LINEFOLLOWER ct)) eqn:Hf;
      [|destruct (is_case (dataBuffer !! 2%nat) (LIGHTSENSOR ct)) eqn:Hl]];
    cbn [orb].
  - apply is_case_true in Hu. rewrite Hu. cbn [default from_option id].
    apply handleSensorData_cache_ok; [exact Hok|]. intros Hs.
    unfold too_short in Hs. cbn [Z.eqb negb andb] in Hs. apply Z.ltb_ge in Hs.
    unfold sensor_index. repeat split; auto; lia.
  - apply is_case_true in Hf. rewrite Hf. cbn [default from_option id].
    apply handleSensorData_cache_ok; [exact Hok|]. intros Hs.
    unfold too_short in Hs. cbn [Z.eqb negb andb] in Hs. apply Z.ltb_ge in Hs.
    unfold sensor_index. repeat split; auto; lia.
  - apply is_case_true in Hl. rewrite Hl. cbn [default from_option id].
    apply handleSensorData_cache_ok; [exact Hok|]. intros Hs.
    unfold too_short in Hs. cbn [Z.eqb negb andb] in Hs. apply Z.ltb_ge in Hs.
    unfold sensor_index. repeat split; auto; lia.
  - destruct (is_case (dataBuffer !! 2%nat) (INNER_BUTTON ct)) eqn:Hb; [|exact Hok].
    apply is_case_true in Hb. rewrite Hb in *. cbn [default from_option id].
    apply handleSensorData_cache_ok; [exact Hok|]. intros _.
    unfold sensor_index. repeat split; auto.
    intros [Hx|[Hx|Hx]]; cbn [is_case] in Hu, Hf, Hl;
      rewrite Hx, Z.eqb_refl in *; discriminate.
Qed.

Lemma handleSensorData_buttons_defined ct idx (data : Buffer) size s :
  (1 <= length data)%nat ->
  buttons_defined (trace s) ->
  buttons_defined (trace (handleSensorData_ ct idx data size s)).
Proof.
  intros Hlen Hok. unfold handleSensorData_, dispatchSensorEvent_.
  destruct data as [|b data]; [cbn in Hlen; lia|].
  unfold buttons_defined in *.
  repeat (match goal with |- context [if ?b then _ else _] => destruct b end);
    cbn [trace emit set_sensorDataCache_]; try exact Hok;
    rewrite elem_of_app, list_elem_of_singleton; intros [H|H];
    try contradiction; discriminate.
Qed.

Lemma handleData_buttons_defined ct (dataBuffer : Buffer) s :
  (4 < length dataBuffer)%nat ->
  buttons_defined (trace s) ->
  buttons_defined (trace (handleData_ ct dataBuffer s)).
Proof.
  intros Hlen Hok. unfold handleData_.
  assert (Hpayload : (1 <= length (drop 4 dataBuffer))%nat)
    by (rewrite length_drop; lia).
  assert (Hlog : forall args,
             buttons_defined (trace (emit (Log "info" args) s))).
  { intros args. unfold buttons_defined in *. cbn [trace emit].
    rewrite elem_of_app, list_elem_of_singleton. intros [H|H];
      [contradiction | discriminate]. }
  repeat (match goal with |- context [if ?b then _ else _] => destruct b end);
    try apply Hlog; now apply handleSensorData_buttons_defined.
Qed.

(** What the loop of [handleOnReceive_] keeps, given what [handleData_]
    keeps on the frames it is called on. *)
Lemma handleOnReceive_keeps (P : State -> Prop) ct
    (reader : Buffer -> Buffer -> option (list Buffer) * Buffer) chunk s :
  (forall b s0, P s0 -> P (set_streamReader_ b s0)) ->
  (forall (f : Buffer) s0, (4 < length f)%nat -> P s0 -> P (handleData_ ct f s0)) ->
  P s -> P (handleOnReceive_ ct reader chunk s).
Proof.
  intros Hreader Hdata Hs. unfold handleOnReceive_.
  destruct (reader (streamReader_ s) chunk) as [[frames|] kept];
    [|now apply Hreader].
  specialize (Hreader kept s Hs). revert Hreader.
  generalize (set_streamReader_ kept s).
  induction frames as [|f frames IH]; intros s0 Hs0; [exact Hs0|].
  cbn [handleOnReceive_loop]. apply IH.
  destruct (Nat.ltb_spec 4 (length f)); [now apply Hdata | exact Hs0].
Qed.

(** * Further properties of the connection life cycle *)

Section Keeps.

Variable handler : gmap string (Params -> Buffer).
Variable P : State -> Prop.
Hypothesis HP : stable P.

Lemma keeps_bind {A B} (m : M A) (k : A -> M B) :
  keeps P m -> (forall a, keeps P (k a)) -> keeps P (m ≫= k).
Proof.
  intros Hm Hk s Hs. rewrite run_bind. specialize (Hm s Hs).
  destruct (m s) as [a s'|e s']; cbn [final] in *; [now apply Hk | exact Hm].
Qed.

Lemma keeps_ret {A} (a : A) : keeps P (mret a).
Proof. intros s Hs. exact Hs. Qed.

Lemma keeps_throw {A} (e : Error) : keeps P (throw e : M A).
Proof. intros s Hs. exact Hs. Qed.

Lemma keeps_get : keeps P get.
Proof. intros s Hs. exact Hs. Qed.

Lemma keeps_emit (e : Effect) :
  (forall ev, e <> Dispatch ev) -> keeps P (lift (emit e)).
Proof. intros He s Hs. now apply (stable_emit P HP). Qed.

Lemma exec_keeps command data : keeps P (exec handler command data).
Proof.
  intros s Hs. rewrite exec_run.
  destruct (handler !! command).
  - rewrite send_run. cbn [final].
    destruct (device s) as [d|]; [|exact Hs].
    now apply (stable_emit P HP).
  - destruct (Object_prototype !! command) as [[v|]|]; try exact Hs.
    rewrite send_value_run. cbn [final].
    destruct (device s) as [d|]; [|exact Hs].
    now apply (stable_emit P HP).
Qed.

Lemma getBuffer_keeps command data : keeps P (getBuffer handler command data).
Proof.
  intros s Hs. unfold getBuffer, call_handler.
  destruct (handler !! command); [exact Hs|].
  now destruct (Object_prototype !! command) as [[v|]|].
Qed.

Lemma monitor_keeps enable : keeps P (monitor enable).
Proof.
  unfold monitor. apply keeps_bind; [apply keeps_get|]. intros s0.
  destruct (enable && isConnected s0); [now apply keeps_emit|].
  destruct (negb enable); [now apply keeps_emit | apply keeps_ret].
Qed.

Lemma reset_keeps : keeps P (reset handler).
Proof.
  unfold reset. apply keeps_bind.
  { intros s Hs. now apply (stable_cache P HP). }
  intros _. apply keeps_bind; [apply keeps_get|]. intros s0.
  destruct (device s0); [|apply keeps_ret].
  apply keeps_bind; [apply exec_keeps|]. intros _. now apply keeps_emit.
Qed.

Lemma cleanUp_keeps : keeps P (cleanUp handler).
Proof.
  unfold cleanUp.
  apply keeps_bind; [now apply keeps_emit|]. intros _.
  apply keeps_bind; [apply reset_keeps|]. intros _.
  apply keeps_bind; [now apply keeps_emit|]. intros _.
  now apply keeps_emit.
Qed.

Lemma disconnect_keeps : keeps P (disconnect handler).
Proof.
  unfold disconnect. apply keeps_bind; [apply keeps_get|]. intros s0.
  apply keeps_bind; [|intros _; apply cleanUp_keeps].
  destruct (device s0) as [d|]; [|apply keeps_ret].
  intros s1 Hs. unfold lift, device_disconnect. cbn [final].
  apply (stable_emit P HP); [discriminate|]. now apply (stable_linked P HP).
Qed.

End Keeps.

Lemma stable_with_device (P : State -> Prop) :
  stable P -> stable (fun s => P s /\ is_Some (device s)).
Proof.
  intros HP. split.
  - intros e s He [Hs Hd]. split; [now apply (stable_emit P HP) | exact Hd].
  - intros d s [Hs Hd]. split; [now apply (stable_device P HP) | cbn; eauto].
  - intros s [Hs Hd]. split; [now apply (stable_cache P HP) | exact Hd].
  - intros l s [Hs Hd]. split; [now apply (stable_linked P HP) | exact Hd].
  - intros s [Hs Hd] _. split; [now apply (stable_prepared P HP) | exact Hd].
Qed.

(** A bind whose first part keeps [Q], with a continuation that leads from
    [Q] to [P]. *)
Lemma bind_post {A B} (Q P : State -> Prop) (m : M A) (k : A -> M B) :
  keeps Q m -> (forall s, Q s -> P s) ->
  (forall a s, Q s -> P (final (k a s))) ->
  forall s, Q s -> P (final ((m ≫= k) s)).
Proof.
  intros Hm HQP Hk s Hs. rewrite run_bind. specialize (Hm s Hs).
  destruct (m s) as [a s'|e s']; cbn [final] in *; [now apply Hk | now apply HQP].
Qed.

Lemma prepare_keeps (handler : gmap string (Params -> Buffer)) (P : State -> Prop) :
  stable P -> keeps P (prepare handler).
Proof.
  intros HP s Hs. unfold prepare. rewrite run_bind.
  unfold listen_on_receive. rewrite run_bind. cbn [get].
  destruct (device s) as [d|] eqn:Hd; [|exact Hs].
  cbn [lift].
  pose proof (stable_with_device P HP) as HQ.
  set (Q := fun s0 => P s0 /\ is_Some (device s0)) in *.
  assert (Hs1 : Q (emit (Listen d) s)).
  { split; [now apply (stable_emit P HP) | cbn; rewrite Hd; eauto]. }
  revert Hs1. generalize (emit (Listen d) s). clear s Hs Hd.
  assert (HQP : forall s, Q s -> P s) by (intros s [H _]; exact H).
  apply (bind_post Q P); [apply (exec_keeps handler Q HQ) | exact HQP |].
  intros _. apply (bind_post Q P); [apply (exec_keeps handler Q HQ) | exact HQP |].
  intros _. apply (bind_post Q P); [apply (exec_keeps handler Q HQ) | exact HQP |].
  intros _. apply (bind_post Q P); [apply (monitor_keeps Q HQ) | exact HQP |].
  intros _ s [Hs Hd]. cbn [lift final]. now apply (stable_prepared P HP).
Qed.

Lemma connect_keeps (handler : gmap string (Params -> Buffer)) (P : State -> Prop) dev :
  stable P -> keeps P (connect handler dev).
Proof.
  intros HP. unfold connect. destruct dev as [d|].
  - apply keeps_bind; [apply keeps_get|]. intros s0.
    apply keeps_bind; [|intros _; apply keeps_ret].
    destruct (negb (prepared s0) && device_isConnected d s0); [|apply keeps_ret].
    apply keeps_bind; [now apply keeps_emit|]. intros _.
    apply keeps_bind; [|intros _; now apply prepare_keeps].
    intros s Hs. now apply (stable_device P HP).
  - apply keeps_bind; [now apply keeps_emit | intros _; apply keeps_ret].
Qed.

(** Every call keeps a stable property that the receive path keeps. *)
Lemma call_keeps ct (handler : gmap string (Params -> Buffer)) reader
    (P : State -> Prop) (c : Call) (s : State) :
  stable P ->
  (forall chunk s0, P s0 -> P (handleOnReceive_ ct reader chunk s0)) ->
  P s -> P (call ct handler reader c s).
Proof.
  intros HP Hreceive Hs. destruct c; cbn [call].
  - now apply connect_keeps.
  - now apply prepare_keeps.
  - now apply disconnect_keeps.
  - now apply exec_keeps.
  - now apply getBuffer_keeps.
  - now apply cleanUp_keeps.
  - now apply reset_keeps.
  - now apply monitor_keeps.
  - now apply Hreceive.
  - now apply (stable_linked P HP).
Qed.

Lemma calls_keeps ct (handler : gmap string (Params -> Buffer)) reader
    (P : State -> Prop) (cs : list Call) (s : State) :
  stable P ->
  (forall chunk s0, P s0 -> P (handleOnReceive_ ct reader chunk s0)) ->
  P s -> P (calls ct handler reader cs s).
Proof.
  intros HP Hreceive. revert s.
  induction cs as [|c cs IH]; intros s Hs; [exact Hs|].
  cbn [calls]. apply IH. now apply call_keeps.
Qed.

Lemma stable_has_device : stable (fun s => is_Some (device s)).
Proof. split; cbn; eauto. Qed.

Lemma stable_is_prepared : stable (fun s => prepared s = true).
Proof. split; cbn; eauto. Qed.

Lemma stable_prepared_has_device :
  stable (fun s => prepared s = true -> is_Some (device s)).
Proof. split; cbn; eauto. Qed.

Lemma stable_cache_ok ct : stable (cache_ok ct).
Proof.
  split; try (intros; assumption).
  intros s _ idx data. cbn. now rewrite lookup_empty.
Qed.

Lemma stable_buttons_defined : stable (fun s => buttons_defined (trace s)).
Proof.
  split; try (intros; assumption).
  intros e s He Hs. unfold buttons_defined in *. cbn [trace emit].
  rewrite elem_of_app, list_elem_of_singleton. intros [H|H]; [contradiction|].
  now apply (He (ButtonPressed None)).
Qed.

(** X15: no exported method, receive event or change of links ever detaches
    the device or clears the prepared flag: an engine that has a device
    keeps having one, and a prepared engine stays prepared, also through
    [disconnect], [cleanUp] and [reset] and through a call that throws. *)
Theorem call_never_detaches (ct : CallbackTypeEnum)
    (handler : gmap string (Params -> Buffer))
    (reader : Buffer -> Buffer -> option (list Buffer) * Buffer)
    (c : Call) (s : State) :
  (is_Some (device s) -> is_Some (device (call ct handler reader c s)))
  /\ (prepared s = true -> prepared (call ct handler reader c s) = true).
Proof.
  split; intros Hs.
  - apply (call_keeps ct handler reader (fun s => is_Some (device s)));
      [apply stable_has_device | | exact Hs].
    intros chunk s0 H0.
    destruct (handleOnReceive_connection ct reader chunk s0) as [-> _]. exact H0.
  - apply (call_keeps ct handler reader (fun s => prepared s = true));
      [apply stable_is_prepared | | exact Hs].
    intros chunk s0 H0.
    destruct (handleOnReceive_connection ct reader chunk s0) as [_ ->]. exact H0.
Qed.

Lemma call_never_detaches_witness :
  prepared (call sample_CallbackType sample_handler sample_reader
              CallDisconnect running_engine) = true
  /\ is_Some (device (call sample_CallbackType sample_handler sample_reader
                        CallDisconnect running_engine)).
Proof.
  destruct (call_never_detaches sample_CallbackType sample_handler sample_reader
              CallDisconnect running_engine) as [Hdev Hprep].
  split; [apply Hprep; reflexivity | apply Hdev; vm_compute; eauto].
Defined.

(** X16: in every state the engine reaches from its constructor, by any
    sequence of calls, receive events and link changes, a set prepared flag
    comes with an attached device. *)
Theorem reachable_prepared_has_device (ct : CallbackTypeEnum)
    (handler : gmap string (Params -> Buffer))
    (reader : Buffer -> Buffer -> option (list Buffer) * Buffer)
    (links : gset Device) (cs : list Call) :
  prepared (calls ct handler reader cs (construct links)) = true ->
  is_Some (device (calls ct handler reader cs (construct links))).
Proof.
  apply (calls_keeps ct handler reader
           (fun s => prepared s = true -> is_Some (device s)));
    [apply stable_prepared_has_device | | discriminate].
  intros chunk s0 H0.
  destruct (handleOnReceive_connection ct reader chunk s0) as [-> ->]. exact H0.
Qed.

Lemma reachable_prepared_has_device_witness :
  is_Some (device (calls sample_CallbackType sample_handler sample_reader
                     [CallConnect (Some "A"); OnReceive ultrasonic_frame; CallDisconnect]
                     (construct {[ "A"; "B" ]}))).
Proof.
  apply (reachable_prepared_has_device sample_CallbackType sample_handler sample_reader
           {[ "A"; "B" ]}
           [CallConnect (Some "A"); OnReceive ultrasonic_frame; CallDisconnect]).
  vm_compute. reflexivity.
Defined.

(** X17: in every state the engine reaches from its constructor the sensor
    cache holds entries for sensor index types only, so at most one per
    sensor kind; every cached payload has at least one byte, and the cached
    ultrasonic, line-follower and light-sensor payloads have at least 4. *)
Theorem reachable_cache_ok (ct : CallbackTypeEnum)
    (handler : gmap string (Params -> Buffer))
    (reader : Buffer -> Buffer -> option (list Buffer) * Buffer)
    (links : gset Device) (cs : list Call) :
  cache_ok ct (calls ct handler reader cs (construct links)).
Proof.
  apply (calls_keeps ct handler reader (cache_ok ct)); [apply stable_cache_ok | |].
  - intros chunk s0 H0. apply handleOnReceive_keeps; [intros; assumption | | exact H0].
    intros f s1 Hf H1. now apply handleData_cache_ok.
  - intros idx data. cbn. now rewrite lookup_empty.
Qed.

(** X18: in every state the engine reaches from its constructor no
    ButtonPressed event has been dispatched with [undefined]: frames come
    to [handleData_] with more than 4 bytes, so a button payload has its
    byte. *)
Theorem reachable_buttons_defined (ct : CallbackTypeEnum)
    (handler : gmap string (Params -> Buffer))
    (reader : Buffer -> Buffer -> option (list Buffer) * Buffer)
    (links : gset Device) (cs : list Call) :
  buttons_defined (trace (calls ct handler reader cs (construct links))).
Proof.
  apply (calls_keeps ct handler reader (fun s => buttons_defined (trace s)));
    [apply stable_buttons_defined | |].
  - intros chunk s0 H0.
    apply (handleOnReceive_keeps (fun s => buttons_defined (trace s)));
      [intros; assumption | | exact H0].
    intros f s1 Hf H1. now apply handleData_buttons_defined.
  - unfold buttons_defined. cbn. apply not_elem_of_nil.
Qed.

(** Like [run], and also through the returns. *)
Ltac run_all := repeat first [run_step | progress (cbn [lift get mret M_ret])].

(** X19: [connect] returns false only for a falsy device, which it just
    logs; for a device whose link is down it returns true although it has
    attached nothing, sent nothing and prepared nothing. *)
Theorem connect_without_link (handler : gmap string (Params -> Buffer))
    (d : Device) (s : State) :
  (device_isConnected d s = false -> connect handler (Some d) s = Return true s)
  /\ connect handler None s
     = Return false (emit (Log "error" [LogText "mBot is not ready yet..."]) s).
Proof.
  split.
  - intros Hlink. unfold connect. run_all. rewrite Hlink, andb_false_r. run_all. reflexivity.
  - unfold connect. run_all. reflexivity.
Qed.

Lemma connect_without_link_witness :
  connect sample_handler (Some "C") fresh_engine = Return true fresh_engine.
Proof.
  apply (connect_without_link sample_handler "C" fresh_engine).
  vm_compute. reflexivity.
Defined.

(** X20: when the handler table has no playTone, [connect] on an unprepared
    engine with a linked device throws after it has attached the device
    and registered the receive listener: the engine is left unprepared with
    the device attached, nothing has been sent, and a second [connect]
    registers the listener once more and throws again. *)
Theorem connect_fails_half_prepared (handler : gmap string (Params -> Buffer))
    (d : Device) (s : State) :
  handler !! "playTone" = None ->
  prepared s = false ->
  device_isConnected d s = true ->
  connect handler (Some d) s
  = Throw (TypeError "playTone")
      (emit (Listen d)
         (set_device (Some d)
            (emit (Log "info" [LogText "Preparing bluetooth api for"; LogText d]) s)))
  /\ trace (final (connect handler (Some d) (final (connect handler (Some d) s))))
     = trace s
       ++ [ Log "info" [LogText "Preparing bluetooth api for"; LogText d]; Listen d;
            Log "info" [LogText "Preparing bluetooth api for"; LogText d]; Listen d ]
  /\ throws (connect handler (Some d) (final (connect handler (Some d) s))) = true.
Proof.
  intros Htone Hprep Hlink.
  assert (Hfail : forall s0, prepared s0 = false -> device_isConnected d s0 = true ->
            connect handler (Some d) s0
            = Throw (TypeError "playTone")
                (emit (Listen d)
                   (set_device (Some d)
                      (emit (Log "info" [LogText "Preparing bluetooth api for"; LogText d])
                         s0)))).
  { intros s0 Hp Hl. unfold connect, prepare, listen_on_receive. run_all.
    rewrite Hp, Hl. cbn [negb andb]. run_all. cbn [device set_device emit]. run_all.
    rewrite exec_run, Htone. reflexivity. }
  rewrite (Hfail s Hprep Hlink). cbn [final].
  rewrite Hfail by (cbn; assumption).
  split; [reflexivity|]. split; [|reflexivity].
  cbn [final trace emit set_device]. now rewrite <- !app_assoc.
Qed.

Lemma connect_fails_half_prepared_witness :
  connect ∅ (Some "A") fresh_engine
  = Throw (TypeError "playTone")
      (emit (Listen "A")
         (set_device (Some "A")
            (emit (Log "info" [LogText "Preparing bluetooth api for"; LogText "A"])
               fresh_engine))).
Proof.
  apply (connect_fails_half_prepared ∅ "A" fresh_engine).
  - reflexivity.
  - reflexivity.
  - vm_compute. reflexivity.
Defined.

(** X21: for a command the handler table knows and an attached device,
    [exec] hands the device exactly the buffer [getBuffer] returns, once,
    whether or not the link is up; a left-out parameter object reaches the
    encoder as the empty object; [getBuffer] itself changes nothing. *)
Theorem exec_sends_getBuffer (handler : gmap string (Params -> Buffer))
    (command : string) (encode : Params -> Buffer) (data : option Params)
    (d : Device) (s : State) :
  handler !! command = Some encode ->
  device s = Some d ->
  getBuffer handler command data s = Return (Encoded (encode (default ∅ data))) s
  /\ exec handler command data s
     = Return tt (emit (DeviceSend d (encode (default ∅ data))) s)
  /\ exec handler command None s = Return tt (emit (DeviceSend d (encode ∅)) s).
Proof.
  intros Hknown Hdev. split; [|split].
  - unfold getBuffer, call_handler. now rewrite Hknown.
  - rewrite exec_run, Hknown, send_run, Hdev. reflexivity.
  - rewrite exec_run, Hknown, send_run, Hdev. reflexivity.
Qed.

Lemma exec_sends_getBuffer_witness :
  getBuffer sample_handler "getVersion" None connected_engine
    = Return (Encoded [255; 85; 3; 9; 1; 0]) connected_engine
  /\ exec sample_handler "getVersion" None connected_engine
     = Return tt (emit (DeviceSend "A" [255; 85; 3; 9; 1; 0]) connected_engine).
Proof.
  destruct (exec_sends_getBuffer sample_handler "getVersion"
              (fun _ : Params => [255; 85; 3; 9; 1; 0]) None "A" connected_engine)
    as (Hbuffer & Hexec & _).
  - reflexivity.
  - reflexivity.
  - split; [exact Hbuffer | exact Hexec].
Defined.

(** X22: with a device attached and a stop command in the handler table,
    [disconnect] returns after these effects, in this order: the device is
    disconnected, the clean-up is logged, the stop command is sent to the
    device, the device is reset, the listeners are cleared and monitoring
    is cleaned up; the cache is empty afterwards, while the device
    reference and the prepared flag are as before. *)
Theorem disconnect_with_device (handler : gmap string (Params -> Buffer))
    (stop : Params -> Buffer) (d : Device) (s : State) :
  handler !! "stop" = Some stop ->
  device s = Some d ->
  exists s' : State,
    disconnect handler s = Return tt s'
    /\ trace s'
       = trace s
         ++ [ DeviceDisconnect d; Log "info" [LogText "Clean up ..."];
              DeviceSend d (stop ∅); DeviceReset d; EventsClear; MonitoringCleanUp ]
    /\ sensorDataCache_ s' = ∅
    /\ device s' = Some d
    /\ prepared s' = prepared s.
Proof.
  intros Hstop Hdev. eexists. split.
  - unfold disconnect, cleanUp, reset. run_all. rewrite Hdev. run_all.
    cbn [device device_disconnect set_linked emit set_sensorDataCache_]. rewrite Hdev. run_all.
    rewrite exec_run, Hstop, send_run.
    cbn [device device_disconnect set_linked emit set_sensorDataCache_]. rewrite Hdev. run_all.
    reflexivity.
  - cbn [trace device prepared sensorDataCache_ device_send device_reset
           monitoring_cleanUp emit set_sensorDataCache_ device_disconnect set_linked
           default].
    rewrite <- !app_assoc. repeat split; try reflexivity. exact Hdev.
Qed.

Lemma disconnect_with_device_witness :
  exists s' : State,
    disconnect sample_handler running_engine = Return tt s'
    /\ trace s'
       = trace running_engine
         ++ [ DeviceDisconnect "A"; Log "info" [LogText "Clean up ..."];
              DeviceSend "A" [255; 85; 6; 0; 2; 5; 0; 0; 0; 0]; DeviceReset "A";
              EventsClear; MonitoringCleanUp ]
    /\ sensorDataCache_ s' = ∅
    /\ device s' = Some "A"
    /\ prepared s' = prepared running_engine.
Proof.
  apply (disconnect_with_device sample_handler
           (fun _ : Params => [255; 85; 6; 0; 2; 5; 0; 0; 0; 0]) "A" running_engine).
  - reflexivity.
  - reflexivity.
Defined.

(** X23: when the handler table has no stop command, [disconnect] with a
    device attached throws after the device was disconnected and the cache
    emptied: the device is not reset, the listeners are not cleared and
    monitoring is not cleaned up. With no device attached [disconnect]
    never throws, whatever the handler table holds. *)
Theorem disconnect_without_stop (handler : gmap string (Params -> Buffer)) (s : State) :
  (forall d : Device,
      handler !! "stop" = None -> device s = Some d ->
      disconnect handler s
      = Throw (TypeError "stop")
          (set_sensorDataCache_ ∅
             (emit (Log "info" [LogText "Clean up ..."]) (device_disconnect d s))))
  /\ (device s = None ->
      disconnect handler s
      = Return tt
          (monitoring_cleanUp
             (emit EventsClear
                (set_sensorDataCache_ ∅
                   (emit (Log "info" [LogText "Clean up ..."]) s))))).
Proof.
  split.
  - intros d Hstop Hdev. unfold disconnect, cleanUp, reset. run_all. rewrite Hdev. run_all.
    cbn [device device_disconnect set_linked emit set_sensorDataCache_]. rewrite Hdev. run_all.
    rewrite exec_run, Hstop. reflexivity.
  - intros Hdev. unfold disconnect, cleanUp, reset. run_all. rewrite Hdev. run_all.
    cbn [device emit set_sensorDataCache_]. rewrite Hdev. run_all. reflexivity.
Qed.

Lemma disconnect_without_stop_witness :
  disconnect ∅ fresh_engine
  = Return tt
      (monitoring_cleanUp
         (emit EventsClear
            (set_sensorDataCache_ ∅
               (emit (Log "info" [LogText "Clean up ..."]) fresh_engine))))
  /\ throws (disconnect ∅ running_engine) = true.
Proof.
  destruct (disconnect_without_stop ∅ fresh_engine) as [_ Hnone].
  destruct (disconnect_without_stop ∅ running_engine) as [Hthrow _].
  split.
  - apply Hnone. reflexivity.
  - rewrite (Hthrow "A"); reflexivity.
Defined.

Lemma stable_cache_empty : stable (fun s => sensorDataCache_ s = ∅).
Proof. split; cbn; eauto. Qed.

(** A bind whose first part establishes [Q] and whose continuation keeps it. *)
Lemma bind_establish {A B} (Q : State -> Prop) (m : M A) (k : A -> M B) :
  (forall s, Q (final (m s))) -> (forall a, keeps Q (k a)) ->
  forall s, Q (final ((m ≫= k) s)).
Proof.
  intros Hm Hk s. rewrite run_bind. specialize (Hm s).
  destruct (m s) as [a s'|e s']; cbn [final] in *; [now apply Hk | exact Hm].
Qed.

Lemma reset_clears (handler : gmap string (Params -> Buffer)) (s : State) :
  sensorDataCache_ (final (reset handler s)) = ∅.
Proof.
  unfold reset. apply (bind_establish (fun s => sensorDataCache_ s = ∅)).
  - intros s0. reflexivity.
  - intros _. apply keeps_bind; [apply keeps_get|]. intros s0.
    destruct (device s0); [|apply keeps_ret].
    apply keeps_bind; [apply exec_keeps, stable_cache_empty|].
    intros _. apply keeps_emit; [apply stable_cache_empty | discriminate].
Qed.

Lemma cleanUp_clears (handler : gmap string (Params -> Buffer)) (s : State) :
  sensorDataCache_ (final (cleanUp handler s)) = ∅.
Proof.
  unfold cleanUp. run_step. cbn [lift].
  apply (bind_establish (fun s => sensorDataCache_ s = ∅)).
  - apply reset_clears.
  - intros _. apply keeps_bind; [|intros _];
      apply keeps_emit; try apply stable_cache_empty; discriminate.
Qed.

Lemma disconnect_clears (handler : gmap string (Params -> Buffer)) (s : State) :
  sensorDataCache_ (final (disconnect handler s)) = ∅.
Proof.
  unfold disconnect. run_all.
  destruct (device s); run_all; apply cleanUp_clears.
Qed.

(** X24: whatever [disconnect] meets, it leaves the cache empty, so that a
    payload seen before the disconnect is not suppressed afterwards: for a
    sensor index type, the first payload that meets the minimum size
    dispatches an event again. *)
Theorem disconnect_clears_cache (ct : CallbackTypeEnum)
    (handler : gmap string (Params -> Buffer)) (s : State) :
  sensorDataCache_ (final (disconnect handler s)) = ∅
  /\ (forall (idx : Z) (data : Buffer) (size : option Z),
        sensor_index ct idx -> too_short data size = false ->
        exists ev : Event,
          dispatched (trace (handleSensorData_ ct idx data size
                               (final (disconnect handler s))))
          = dispatched (trace (final (disconnect handler s))) ++ [ev]).
Proof.
  split; [apply disconnect_clears|].
  intros idx data size Hidx Hs.
  assert (Hc : is_cached idx data (final (disconnect handler s)) = false).
  { apply is_cached_false. rewrite disconnect_clears, lookup_empty. discriminate. }
  destruct (handleSensorData_accepted_sensor ct idx data size _ Hs Hc Hidx) as [ev Hev].
  exists ev. now rewrite Hev, dispatched_emit_dispatch.
Qed.

Lemma disconnect_clears_cache_witness :
  exists ev : Event,
    dispatched (trace (handleSensorData_ sample_CallbackType 16 [0; 0; 72; 67; 13; 10]
                         (Some 4) (final (disconnect sample_handler running_engine))))
    = dispatched (trace (final (disconnect sample_handler running_engine))) ++ [ev].
Proof.
  destruct (disconnect_clears_cache sample_CallbackType sample_handler running_engine)
    as [_ Hagain].
  apply Hagain.
  - right. right. right. reflexivity.
  - reflexivity.
Defined.

(** X25: a prepared engine cannot be prepared again: after [disconnect],
    whether it returned or threw, [connect] with any device returns true
    and does nothing, so the receive listener that the clean-up cleared is
    not registered again, no tone or version query is sent and monitoring is
    not restarted. *)
Theorem connect_after_disconnect_does_nothing
    (handler : gmap string (Params -> Buffer)) (d : Device) (s : State) :
  prepared s = true ->
  connect handler (Some d) (final (disconnect handler s))
  = Return true (final (disconnect handler s)).
Proof.
  intros Hprep.
  assert (Hstill : prepared (final (disconnect handler s)) = true).
  { apply (disconnect_keeps handler (fun s => prepared s = true));
      [apply stable_is_prepared | exact Hprep]. }
  unfold connect. run_all. rewrite Hstill. cbn [negb andb]. run_all. reflexivity.
Qed.

Lemma connect_after_disconnect_does_nothing_witness :
  connect sample_handler (Some "B") (final (disconnect sample_handler running_engine))
  = Return true (final (disconnect sample_handler running_engine)).
Proof.
  apply (connect_after_disconnect_does_nothing sample_handler "B" running_engine).
  reflexivity.
Defined.

(** X26: [intBitsToFloat_] looks at the low 32 bits of its argument only:
    two numbers with the same 32-bit pattern decode to the same value, so
    the signed reading that [fourBytesToInt_] returns and the unsigned
    reading of the same four bytes give the same float. *)
Theorem intBitsToFloat_low_32_bits (a b : Z) :
  a mod 2 ^ 32 = b mod 2 ^ 32 ->
  Codec.intBitsToFloat_ a = Codec.intBitsToFloat_ b.
Proof. intros Hab. now rewrite (intBitsToFloat_pattern a), (intBitsToFloat_pattern b), Hab. Qed.

Lemma intBitsToFloat_low_32_bits_witness :
  Codec.intBitsToFloat_ (-1069547520) = Codec.intBitsToFloat_ 3225419776.
Proof. apply (intBitsToFloat_low_32_bits (-1069547520) 3225419776). reflexivity. Defined.
